(** * projadm: project administration wrapper of the indexing service

    A shallow embedding of [tools/sync/projadm.py].  The script is sequential
    glue around four collaborators: the configuration web service, an external
    merge executable, the filesystem and a file lock.  The embedding threads
    an explicit [world] (files on disk, user-space buffers of open temporary
    files, the lock, and the chronological [trace] of every externally visible
    action) through a small state-and-abort monad. *)

From Stdlib Require Import NArith ZArith Ascii String.
From stdpp Require Import base strings list gmap fin_maps fin_sets infinite.

Open Scope string_scope.
Open Scope list_scope.
Open Scope N_scope.

(** The trace records what is handed to the logger, at its level, whatever
    level the logger is configured to show ([--debug]). *)

(** ** Python values *)

(** A Python [str] is a sequence of Unicode code points; the content of a
    file is a sequence of bytes, for which Rocq's [string] (a sequence of
    8-bit characters) is used. *)
Abbreviation pystr := (list N).

(** An ASCII literal of the source as a Python [str]. *)
Definition lit (s : string) : pystr :=
  N_of_ascii <$> list_ascii_of_string s.

(** Truthiness of the values the script tests with [if x] / [if not x]. *)
Class Truthy (A : Type) := truthy : A → bool.

#[global] Instance list_truthy {A} : Truthy (list A) :=
  λ l, match l with [] => false | _ => true end.
#[global] Instance option_truthy {A} `{Truthy A} : Truthy (option A) :=
  λ o, match o with None => false | Some a => truthy a end.

(** [str.format] applied to a value that may be [None]. *)
Definition str_of (o : option pystr) : pystr :=
  match o with Some s => s | None => lit "None" end.

(** [_PyUnicode_IsWhitespace]: the code points removed by [str.rstrip()]. *)
Definition py_isspace (c : N) : bool :=
  ((0x09 <=? c) && (c <=? 0x0D)) || ((0x1C <=? c) && (c <=? 0x20))
  || (c =? 0x85) || (c =? 0xA0) || (c =? 0x1680)
  || ((0x2000 <=? c) && (c <=? 0x200A))
  || (c =? 0x2028) || (c =? 0x2029) || (c =? 0x202F) || (c =? 0x205F)
  || (c =? 0x3000).

Fixpoint lstrip (s : pystr) : pystr :=
  match s with
  | c :: s' => if py_isspace c then lstrip s' else s
  | [] => []
  end.

(** [s.rstrip()] *)
Definition rstrip (s : pystr) : pystr := reverse (lstrip (reverse s)).

(** [''.join(s)] for a [str] [s]: the one-character strings obtained by
    iterating over [s], concatenated. *)
Definition join_chars (s : pystr) : pystr := concat ((λ c, [c]) <$> s).

(** [''.join(l)] for a list of [str]. *)
Definition join_lines (l : list pystr) : pystr := concat l.

(** *** UTF-8 *)

Definition byte_of (n : N) : ascii := ascii_of_N n.

(** The bytes of one code point; lone surrogates and values above
    U+10FFFF have no encoding ([UnicodeEncodeError]). *)
Definition utf8_char (c : N) : option (list ascii) :=
  if c <? 0x80 then Some [byte_of c]
  else if c <? 0x800 then
    Some [byte_of (N.lor 0xC0 (N.shiftr c 6));
          byte_of (N.lor 0x80 (N.land c 0x3F))]
  else if c <? 0x10000 then
    if (0xD800 <=? c) && (c <=? 0xDFFF) then None
    else
      Some [byte_of (N.lor 0xE0 (N.shiftr c 12));
            byte_of (N.lor 0x80 (N.land (N.shiftr c 6) 0x3F));
            byte_of (N.lor 0x80 (N.land c 0x3F))]
  else if c <? 0x110000 then
    Some [byte_of (N.lor 0xF0 (N.shiftr c 18));
          byte_of (N.lor 0x80 (N.land (N.shiftr c 12) 0x3F));
          byte_of (N.lor 0x80 (N.land (N.shiftr c 6) 0x3F));
          byte_of (N.lor 0x80 (N.land c 0x3F))]
  else None.

Fixpoint utf8_list (s : pystr) : option (list ascii) :=
  match s with
  | [] => Some []
  | c :: s' =>
      match utf8_char c, utf8_list s' with
      | Some bs, Some rest => Some (bs ++ rest)
      | _, _ => None
      end
  end.

(** [bytearray(s, "UTF-8")] *)
Definition utf8_encode (s : pystr) : option string :=
  string_of_list_ascii <$> utf8_list s.

(** ** posixpath *)

Definition sep : N := 0x2F.

Definition startswith_sep (b : pystr) : bool :=
  match b with c :: _ => c =? sep | [] => false end.

Definition endswith_sep (p : pystr) : bool :=
  match last p with Some c => c =? sep | None => false end.

(** One iteration of the loop of [posixpath.join]. *)
Definition join_step (path b : pystr) : pystr :=
  if startswith_sep b then b
  else if negb (truthy path) || endswith_sep path then path ++ b
  else path ++ sep :: b.

(** [os.path.join(a, *p)] *)
Definition path_join (a : pystr) (p : list pystr) : pystr :=
  foldl join_step a p.

(** ** The world *)

Inductive level := DEBUG | INFO | WARNING | ERROR.

(** What is handed to the logger: a formatted message, a [Command] object
    (printed as its argument vector) or the list of captured output lines. *)
Inductive logmsg :=
| MsgStr (s : pystr)
| MsgCmd (argv : list pystr)
| MsgLines (out : list pystr).

(** The requests of module [opengrok] to the web service. *)
Inductive request :=
| ReqGetConfiguration (uri : pystr)
| ReqSetConfiguration (path uri : pystr)
| ReqAddProject (project uri : pystr)
| ReqDeleteProject (project uri : pystr)
| ReqGetConfigValue (key uri : pystr).

(** Externally visible actions, in the order they happen.  [Exec] records,
    next to the argument vector, what each argument names on disk at the
    moment the subprocess starts. *)
Inductive event :=
| Log (l : level) (m : logmsg)
| Net (r : request)
| Exec (argv : list pystr) (seen : list (option string))
| TmpCreate (name : pystr)
| TmpUnlink (name : pystr)
| CopyFile (src dst : pystr)
| RmTree (dir : pystr)
| PrintHelp
| LockAcquire
| LockRelease.

Record world := World {
  files : gmap (list N) string;    (* regular files on disk *)
  dirs : gset (list N);            (* directories *)
  buffers : gmap (list N) string;  (* unflushed bytes of open temporary files *)
  lock_taken : bool;               (* the lock is held by another instance *)
  trace : list event
}.

Definition emit (e : event) (w : world) : world :=
  {| files := files w; dirs := dirs w; buffers := buffers w;
     lock_taken := lock_taken w; trace := trace w ++ [e] |}.

Definition set_files (f : gmap (list N) string) (w : world) : world :=
  {| files := f; dirs := dirs w; buffers := buffers w;
     lock_taken := lock_taken w; trace := trace w |}.

Definition set_dirs (d : gset (list N)) (w : world) : world :=
  {| files := files w; dirs := d; buffers := buffers w;
     lock_taken := lock_taken w; trace := trace w |}.

Definition set_buffers (b : gmap (list N) string) (w : world) : world :=
  {| files := files w; dirs := dirs w; buffers := b;
     lock_taken := lock_taken w; trace := trace w |}.

(** ** Collaborators *)

(** Modelled from the spec: class [Command] of module [command] is not part
    of the sources.  A command that has been executed is in state [FINISHED]
    or terminated abnormally, has a return code (absent when it did not
    run to completion) and a list of captured output lines. *)
Inductive cmd_state := FINISHED | ABNORMAL.

#[global] Instance cmd_state_eq_dec : EqDecision cmd_state.
Proof. solve_decision. Defined.

Record cmd_result := CmdResult {
  getstate : cmd_state;
  getretcode : option Z;
  getoutput : list pystr
}.

(** The two exception classes [install_config] tells apart. *)
Inductive copy_failure := PermissionError | OSError.

(** Everything outside the script, as functions of the world in which the
    script consults them (the trace makes them history dependent):
    the answers of the web service, the run of a subprocess, the failures of
    [shutil.copyfile], the name chosen for a temporary file, the command
    look-up of module [utils], and the buffer size of buffered binary files
    ([io.DEFAULT_BUFFER_SIZE], or the block size of the device). *)
Record collaborators := Collaborators {
  svc_configuration : world → pystr → option pystr;
  svc_config_value : world → pystr → pystr → option (list pystr);
  cmd_run : world → list pystr → cmd_result;
  copy_fails : world → pystr → pystr → option copy_failure;
  mkstemp : world → pystr;
  get_command : world → option pystr → pystr → option pystr;
  buffer_size : nat
}.

(** ** The monad: state, [sys.exit] and exceptions *)

Inductive exception :=
| PyException (msg : pystr)
| TypeError
| IndexError
| UnicodeEncodeError
| FileNotFoundError (p : pystr)
| Timeout.

Inductive outcome (A : Type) :=
| Return (a : A)
| Exit (code : Z)
| Raise (e : exception).
Arguments Return {A} a.
Arguments Exit {A} code.
Arguments Raise {A} e.

Definition M (A : Type) : Type := world → outcome A * world.

Definition ret {A} (a : A) : M A := λ w, (Return a, w).

Definition bind {A B} (m : M A) (k : A → M B) : M B := λ w,
  match m w with
  | (Return a, w') => k a w'
  | (Exit c, w') => (Exit c, w')
  | (Raise e, w') => (Raise e, w')
  end.

Notation "'let!' x ':=' m 'in' k" := (bind m (λ x, k))
  (at level 10, x name, m at level 100, k at level 200, only parsing).
Notation "m >> k" := (bind m (λ _, k))
  (at level 100, k at level 200, right associativity, only parsing).

Definition sys_exit {A} (code : Z) : M A := λ w, (Exit code, w).
Definition raise {A} (e : exception) : M A := λ w, (Raise e, w).
Definition action (e : event) : M unit := λ w, (Return tt, emit e w).
Definition ask {A} (f : world → A) : M A := λ w, (Return (f w), w).

(** [for x in l: body(x)] *)
Fixpoint for_each {A} (l : list A) (body : A → M unit) : M unit :=
  match l with
  | [] => ret tt
  | x :: l' => body x >> for_each l' body
  end.

(** [try: m  except Timeout: handler] *)
Definition try_except_Timeout {A} (m handler : M A) : M A := λ w,
  match m w with
  | (Raise Timeout, w') => handler w'
  | r => r
  end.

Definition log (l : level) (s : pystr) : M unit := action (Log l (MsgStr s)).

(** ** Primitives of the libraries the script calls *)

Section primitives.
Context (C : collaborators).

(** [os.path.isfile], [os.path.isdir] *)
Definition path_isfile (p : pystr) : M bool :=
  ask (λ w, bool_decide (is_Some (files w !! p))).
Definition path_isdir (p : pystr) : M bool :=
  ask (λ w, bool_decide (p ∈ dirs w)).

(** [tempfile.NamedTemporaryFile()] opens its file in mode [w+b] with the
    default buffering: the object is an [io.BufferedRandom], and what it
    holds in its buffer is not seen by a reader who opens the file by name
    until [flush()] or [close()].

    [BufferedRandom.write], as [_io.BufferedWriter.write] does it: data
    that fits into the free part of the buffer is only buffered; otherwise
    the buffer is flushed and the data goes to the file at once when it is
    longer than the buffer, into the emptied buffer when not.  The result is
    the pair of the bytes on disk and the buffered bytes. *)
Definition buffered_write (bsize : nat) (disk buf data : string)
  : string * string :=
  if (String.length data <=? bsize - String.length buf)%nat then
    (disk, buf +:+ data)
  else if (bsize <? String.length data)%nat then
    (disk +:+ buf +:+ data, EmptyString)
  else (disk +:+ buf, data).

Definition on_disk (w : world) (name : pystr) : string :=
  default EmptyString (files w !! name).
Definition buffered (w : world) (name : pystr) : string :=
  default EmptyString (buffers w !! name).

(** [f.write(data)] on the temporary file called [name] *)
Definition file_write (name : pystr) (data : string) : M unit := λ w,
  let r := buffered_write (buffer_size C) (on_disk w name) (buffered w name)
             data in
  (Return tt,
   set_buffers (<[name:=r.2]> (buffers w))
     (set_files (<[name:=r.1]> (files w)) w)).

(** Entering [with tempfile.NamedTemporaryFile() as f]: an empty file
    under a new name, opened for buffered binary writing. *)
Definition tmp_open (w : world) : pystr * world :=
  let name := mkstemp C w in
  (name,
   emit (TmpCreate name)
     (set_buffers (<[name:=EmptyString]> (buffers w))
        (set_files (<[name:=EmptyString]> (files w)) w))).

(** Leaving the [with] block: [close()] flushes the buffer and unlinks
    the file. *)
Definition tmp_close (name : pystr) (w : world) : world :=
  let flushed :=
    set_buffers (delete name (buffers w))
      (set_files (<[name:=on_disk w name +:+ buffered w name]> (files w)) w)
  in
  emit (TmpUnlink name) (set_files (delete name (files flushed)) flushed).

(** [with tempfile.NamedTemporaryFile() as f: body]; the file is closed
    however the body ends. *)
Definition with_NamedTemporaryFile {A} (body : pystr → M A) : M A := λ w,
  let o := tmp_open w in
  let r := body o.1 o.2 in
  (r.1, tmp_close o.1 r.2).

(** [shutil.copyfile(src, dst)]: the failure, if any, that the caller's
    [except] clauses see.  The same file on both sides and a missing
    source are [OSError]s; any other failure is the collaborator's. *)
Definition shutil_copyfile (src dst : pystr) : M (option copy_failure) :=
  λ w,
  let w1 := emit (CopyFile src dst) w in
  if bool_decide (src = dst) then (Return (Some OSError), w1)
  else
    match files w !! src with
    | None => (Return (Some OSError), w1)
    | Some data =>
        match copy_fails C w src dst with
        | Some err => (Return (Some err), w1)
        | None => (Return None, set_files (<[dst:=data]> (files w1)) w1)
        end
    end.

(** [p] is [d] or lies below it. *)
Definition under (d p : pystr) : bool :=
  bool_decide (p = d)
  || bool_decide ((if endswith_sep d then d else d ++ [sep]) `prefix_of` p).

(** [shutil.rmtree(d)] *)
Definition shutil_rmtree (d : pystr) : M unit := λ w,
  let w1 := emit (RmTree d) w in
  if bool_decide (d ∈ dirs w) then
    (Return tt,
     set_dirs (filter (λ p, under d p = false) (dirs w1))
       (set_files (filter (λ kv, under d kv.1 = false) (files w1)) w1))
  else (Raise (FileNotFoundError d), w1).

(** Module [opengrok]: the request is sent, the answer is the service's. *)
Definition get_configuration (uri : pystr) : M (option pystr) := λ w,
  (Return (svc_configuration C w uri), emit (Net (ReqGetConfiguration uri)) w).
Definition set_configuration (path uri : pystr) : M unit :=
  action (Net (ReqSetConfiguration path uri)).
Definition add_project (project uri : pystr) : M unit :=
  action (Net (ReqAddProject project uri)).
Definition delete_project (project uri : pystr) : M unit :=
  action (Net (ReqDeleteProject project uri)).
Definition get_config_value (key uri : pystr) : M (option (list pystr)) :=
  λ w,
  (Return (svc_config_value C w key uri),
   emit (Net (ReqGetConfigValue key uri)) w).

(** [Command(cmd).execute()] *)
Definition Command_execute (cmd : list pystr) : M cmd_result := λ w,
  (Return (cmd_run C w cmd), emit (Exec cmd ((files w !!.) <$> cmd)) w).

(** [with lock.acquire(timeout=0): body] *)
Definition with_lock {A} (body : M A) : M A := λ w,
  if lock_taken w then (Raise Timeout, w)
  else
    let r := body (emit LockAcquire w) in
    (r.1, emit LockRelease r.2).

(** [bytearray(''.join(x), "UTF-8")] for [x] a [str] or [None] *)
Definition bytearray_of_str (x : option pystr) : M string :=
  match x with
  | None => raise TypeError
  | Some s =>
      match utf8_encode (join_chars s) with
      | Some b => ret b
      | None => raise UnicodeEncodeError
      end
  end.

(** [bytearray(''.join(x), "UTF-8")] for [x] a list of [str] or [None] *)
Definition bytearray_of_lines (x : option (list pystr)) : M string :=
  match x with
  | None => raise TypeError
  | Some l =>
      match utf8_encode (join_lines l) with
      | Some b => ret b
      | None => raise UnicodeEncodeError
      end
  end.

End primitives.

(** ** The script *)

(** The value of an optional [str] that was tested to be present. *)
Definition the (o : option pystr) : pystr := default [] o.

Record arguments := Args {
  arg_debug : bool;
  arg_base : pystr;
  arg_roconfig : option pystr;
  arg_uri : pystr;
  arg_configmerge : option pystr;
  arg_upload : bool;
  arg_noop : bool;                    (* [True] unless [-n] is given *)
  arg_add : option (list pystr);
  arg_delete : option (list pystr);
  arg_refresh : bool
}.

Section script.
Context (C : collaborators).

(** The [logger] argument of the functions is the one logger of the
    process; what it is given appears as [Log] events of the trace. *)

Definition exec_command (doit : bool) (cmd : list pystr) (msg : pystr)
  : M (option (list pystr)) :=
  if negb doit then
    action (Log INFO (MsgCmd cmd)) >>
    ret None
  else
    let! r := Command_execute C cmd in
    if negb (bool_decide (getstate r = FINISHED))
       || negb (bool_decide (getretcode r = Some 0%Z)) then
      log ERROR msg >>
      action (Log ERROR (MsgLines (getoutput r))) >>
      sys_exit 1
    else ret (Some (getoutput r)).

Definition get_config_file (basedir : pystr) : pystr :=
  path_join basedir [lit "etc"; lit "configuration.xml"].

Definition install_config (doit : bool) (src dst : pystr) : M unit :=
  if negb doit then
    log DEBUG (lit "Not copying " ++ src ++ lit " to " ++ dst)
  else
    log DEBUG (lit "Copying " ++ src ++ lit " to " ++ dst) >>
    let! failure := shutil_copyfile C src dst in
    match failure with
    | None => ret tt
    | Some PermissionError =>
        log ERROR (lit "Failed to copy " ++ src ++ lit " to " ++ dst
                   ++ lit " (permissions)") >>
        sys_exit 1
    | Some OSError =>
        log ERROR (lit "Failed to copy " ++ src ++ lit " to " ++ dst
                   ++ lit " (I/O)") >>
        sys_exit 1
    end.

Definition config_refresh (doit : bool) (basedir uri configmerge : pystr)
  (roconfig : option pystr) : M unit :=
  let main_config := get_config_file basedir in
  let! isfile := path_isfile main_config in
  if negb isfile then
    log ERROR (lit "file " ++ main_config ++ lit " does not exist") >>
    sys_exit 1
  else
  let! current_config :=
    (if doit then
       let! current_config := get_configuration C uri in
       if negb (truthy current_config) then sys_exit 1
       else ret current_config
     else ret None) in
  with_NamedTemporaryFile C (λ fcur,
    log DEBUG (lit "Temporary file for current config: " ++ fcur) >>
    (if doit then
       let! data := bytearray_of_str current_config in
       file_write C fcur data
     else ret tt) >>
    if negb (truthy roconfig) then
      log INFO (lit "Refreshing configuration") >>
      install_config doit fcur main_config
    else
      log INFO (lit "Refreshing configuration (merging with read-only config)") >>
      let! merged_config :=
        exec_command doit [configmerge; the roconfig; fcur]
          (lit "cannot merge configuration") in
      with_NamedTemporaryFile C (λ fmerged,
        log DEBUG (lit "Temporary file for merged config: " ++ fmerged) >>
        if doit then
          let! data := bytearray_of_lines merged_config in
          file_write C fmerged data >>
          install_config doit fmerged main_config
        else ret tt)).

Definition project_add (doit : bool) (project uri : pystr) : M unit :=
  log INFO (lit "Adding project " ++ project) >>
  if doit then add_project project uri else ret tt.

Definition project_delete (doit : bool) (project : option pystr)
  (uri : pystr) : M unit :=
  if negb (truthy project) || (length (the project) =? 0)%nat then
    raise (PyException (lit "invalid call to project_delete(): missing project"))
  else
  log INFO (lit "Deleting project " ++ the project ++ lit " and its index data") >>
  (if doit then delete_project (the project) uri else ret tt) >>
  let! src_root := get_config_value C (lit "sourceRoot") uri in
  if negb (truthy src_root) then
    raise (PyException (lit "Could not get source root"))
  else
  match default [] src_root with
  | [] => raise IndexError
  | first :: _ =>
      let src_root := rstrip first in
      log DEBUG (lit "Source root = " ++ src_root) >>
      if negb (truthy src_root) || (length src_root =? 0)%nat then
        raise (PyException (lit "source root empty"))
      else
      let sourcedir := path_join src_root [the project] in
      log DEBUG (lit "Removing directory tree " ++ sourcedir) >>
      if doit then
        log INFO (lit "Removing source code under " ++ sourcedir) >>
        shutil_rmtree sourcedir
      else ret tt
  end.

(** The body of the [with lock.acquire(timeout=0)] block. *)
Definition locked_section (args : arguments) (uri configmerge_file : pystr)
  : M unit :=
  (if truthy (arg_add args) then
     for_each (default [] (arg_add args))
       (λ proj, project_add (arg_noop args) proj uri) >>
     config_refresh (arg_noop args) (arg_base args) uri configmerge_file
       (arg_roconfig args)
   else if truthy (arg_delete args) then
     for_each (default [] (arg_delete args))
       (λ proj, project_delete (arg_noop args) (Some proj) uri) >>
     config_refresh (arg_noop args) (arg_base args) uri configmerge_file
       (arg_roconfig args)
   else if arg_refresh args then
     config_refresh (arg_noop args) (arg_base args) uri configmerge_file
       (arg_roconfig args)
   else
     action PrintHelp >>
     sys_exit 1) >>
  if arg_upload args then
    let main_config := get_config_file (arg_base args) in
    let! isfile := path_isfile main_config in
    if isfile then
      if arg_noop args then set_configuration main_config uri else ret tt
    else
      log ERROR (lit "file " ++ main_config ++ lit " does not exist") >>
      sys_exit 1
  else ret tt.

(** The checks of the main program before it takes the lock; the result
    is the resolved merge command. *)
Definition preflight (args : arguments) : M pystr :=
  (if truthy (arg_base args) then
     let! isdir := path_isdir (arg_base args) in
     if isdir then
       log DEBUG (lit "Using " ++ arg_base args ++ lit " as instance base")
     else
       log ERROR (lit "Not a directory: " ++ arg_base args ++ [10]
                  ++ lit "Set the base directory with the --base option.") >>
       sys_exit 1
   else ret tt) >>
  (if truthy (arg_roconfig args) then
     let! isfile := path_isfile (the (arg_roconfig args)) in
     if isfile then
       log DEBUG (lit "Using " ++ the (arg_roconfig args)
                  ++ lit " as read-only config")
     else
       log ERROR (lit "File " ++ the (arg_roconfig args)
                  ++ lit " does not exist") >>
       sys_exit 1
   else ret tt) >>
  (if negb (truthy (arg_uri args)) then
     log ERROR (lit "uri of the webapp not specified") >>
     sys_exit 1
   else ret tt) >>
  let! configmerge_file :=
    ask (λ w, get_command C w (arg_configmerge args) (lit "ConfigMerge")) in
  if negb (truthy configmerge_file) then
    log ERROR (lit "Use the --configmerge option to specify the path tothe ConfigMerge script") >>
    sys_exit 1
  else ret (the configmerge_file).

(** The main program, from the parsed arguments on. *)
Definition main (args : arguments) : M unit :=
  let! configmerge_file := preflight args in
  try_except_Timeout
    (with_lock (locked_section args (arg_uri args) configmerge_file))
    (log WARNING (lit "Already running, exiting.") >>
     sys_exit 1).

End script.

(** ** Observations on a run *)

(** The events a computation adds to the trace. *)
Definition events_of {A} (m : M A) (w : world) : list event :=
  drop (length (trace w)) (trace (m w).2).

(** The directories handed to [shutil.rmtree]. *)
Fixpoint removed_dirs (es : list event) : list pystr :=
  match es with
  | RmTree d :: es' => d :: removed_dirs es'
  | _ :: es' => removed_dirs es'
  | [] => []
  end.

Definition is_log (e : event) : Prop :=
  match e with Log _ _ => True | _ => False end.

(** What a dry run may do: log, ask the service for the value of
    [sourceRoot], and create and remove temporary files. *)
Definition dry_event (e : event) : Prop :=
  match e with
  | Log _ _ | TmpCreate _ | TmpUnlink _ => True
  | Net (ReqGetConfigValue key _) => key = lit "sourceRoot"
  | _ => False
  end.

(** Of [data] written to a new buffered file that is still open: the bytes
    found on disk, and the bytes that wait in the buffer. *)
Definition visible (bsize : nat) (data : string) : string :=
  if (String.length data <=? bsize)%nat then EmptyString else data.
Definition pending (bsize : nat) (data : string) : string :=
  if (String.length data <=? bsize)%nat then data else EmptyString.

(** What a dry run of the whole program may do besides: take and release
    the lock, and print the help text. *)
Definition dry_main_event (e : event) : Prop :=
  match e with
  | LockAcquire | LockRelease | PrintHelp => True
  | _ => dry_event e
  end.

(** Copies, if any, go to [p]. *)
Definition installs_into (p : pystr) (e : event) : Prop :=
  match e with CopyFile _ dst => dst = p | _ => True end.

(** [m] only adds events that satisfy [P] to the trace. *)
Definition emits (P : event → Prop) {A} (m : M A) : Prop :=
  ∀ w, ∃ es, trace (m w).2 = trace w ++ es ∧ Forall P es.

(** [m] leaves files, directories and the lock as they were. *)
Definition keeps {A} (m : M A) : Prop :=
  ∀ w, files (m w).2 = files w ∧ dirs (m w).2 = dirs w
       ∧ lock_taken (m w).2 = lock_taken w.

(** The temporary-file names of [C] are new: no file of that name exists. *)
Definition fresh_names (C : collaborators) : Prop :=
  ∀ w, files w !! mkstemp C w = None.

(** ** Sample collaborators and worlds *)

Definition sample_uri : pystr := lit "http://x/source".
Definition sample_base : pystr := lit "/tmp/inst".

(** An instance under [/tmp/inst] with a configuration file, a read-only
    configuration, and the source tree of project [foo] under [/src]. *)
Definition sample_world : world :=
  {| files := {[ lit "/tmp/inst/etc/configuration.xml" := "<old/>";
                 lit "/ro.xml" := "<ro/>" ]};
     dirs := {[ lit "/tmp/inst"; lit "/src"; lit "/src/foo" ]};
     buffers := ∅;
     lock_taken := false;
     trace := [] |}.

(** A name for a temporary file: the first of two usual ones that is not
    taken, any name that is not taken otherwise. *)
Definition sample_mkstemp (w : world) : pystr :=
  match
    List.find (λ n, bool_decide (files w !! n = None))
      [lit "/tmp/tmpk3v9x2ab"; lit "/tmp/tmpq8w1z7cd"]
  with
  | Some n => n
  | None => fresh (dom (files w))
  end.

(** A service that answers [<config/>] and [/src], a merge tool that prints
    [<merged/>], copies that succeed, and the default buffer size. *)
Definition sample : collaborators :=
  {| svc_configuration := λ _ _, Some (lit "<config/>");
     svc_config_value := λ _ _ _, Some [lit "/src"];
     cmd_run := λ _ _, CmdResult FINISHED (Some 0%Z) [lit "<merged/>"];
     copy_fails := λ _ _ _, None;
     mkstemp := sample_mkstemp;
     get_command := λ _ o _, o;
     buffer_size := 8 * 1024 |}.

(** The same, with a merge tool that exits with code 1. *)
Definition sample_failing_merge : collaborators :=
  {| svc_configuration := svc_configuration sample;
     svc_config_value := svc_config_value sample;
     cmd_run := λ _ _, CmdResult FINISHED (Some 1%Z) [lit "error"];
     copy_fails := copy_fails sample;
     mkstemp := mkstemp sample;
     get_command := get_command sample;
     buffer_size := buffer_size sample |}.

(** The same, with a service that reports two values for [sourceRoot]. *)
Definition sample_two_roots : collaborators :=
  {| svc_configuration := svc_configuration sample;
     svc_config_value := λ _ _ _, Some [lit "/src"; lit "/elsewhere"];
     cmd_run := cmd_run sample;
     copy_fails := copy_fails sample;
     mkstemp := mkstemp sample;
     get_command := get_command sample;
     buffer_size := buffer_size sample |}.

(** [projadm.py -b /tmp/inst -U http://x/source -c ConfigMerge -r] *)
Definition sample_refresh : arguments :=
  {| arg_debug := false;
     arg_base := sample_base;
     arg_roconfig := None;
     arg_uri := sample_uri;
     arg_configmerge := Some (lit "ConfigMerge");
     arg_upload := false;
     arg_noop := true;
     arg_add := None;
     arg_delete := None;
     arg_refresh := true |}.

(** The sample world while another instance of the script holds the lock. *)
Definition sample_world_locked : world :=
  {| files := files sample_world;
     dirs := dirs sample_world;
     buffers := buffers sample_world;
     lock_taken := true;
     trace := [] |}.

(** ** Further observations *)

(** How the run of [m] from [w] ends: normally, with an exit code that
    satisfies [PE], or with an exception that satisfies [PR]. *)
Definition ends (PE : Z → Prop) (PR : exception → Prop) {A} (m : M A)
  (w : world) : Prop :=
  match (m w).1 with
  | Return _ => True
  | Exit c => PE c
  | Raise e => PR e
  end.


(** [m] changes no file outside [S] and no directory. *)
Definition scratch (S : pystr → Prop) {A} (m : M A) : Prop :=
  ∀ w, (∀ p, ¬ S p → files (m w).2 !! p = files w !! p)
       ∧ dirs (m w).2 = dirs w.

(** Started where the file [target] exists, [m] changes no directory and,
    outside [S], either no file at all, or returns normally having replaced
    the content of [target] and nothing else. *)
Definition commits (S : pystr → Prop) (target : pystr) {A} (m : M A) : Prop :=
  ∀ w, is_Some (files w !! target) →
    dirs (m w).2 = dirs w
    ∧ ((∀ p, ¬ S p → files (m w).2 !! p = files w !! p)
       ∨ ((∃ a, (m w).1 = Return a)
          ∧ ∃ data, ∀ p, ¬ S p →
              files (m w).2 !! p = <[target:=data]> (files w) !! p)).

(** The arguments without [--upload]. *)
Definition without_upload (args : arguments) : arguments :=
  {| arg_debug := arg_debug args;
     arg_base := arg_base args;
     arg_roconfig := arg_roconfig args;
     arg_uri := arg_uri args;
     arg_configmerge := arg_configmerge args;
     arg_upload := false;
     arg_noop := arg_noop args;
     arg_add := arg_add args;
     arg_delete := arg_delete args;
     arg_refresh := arg_refresh args |}.




(** What [config_refresh] may do. *)
Definition refresh_event (uri configmerge : pystr) (roconfig : option pystr)
  (main_config : pystr) (e : event) : Prop :=
  match e with
  | Log _ _ | TmpCreate _ | TmpUnlink _ => True
  | Net r => r = ReqGetConfiguration uri
  | Exec argv _ => ∃ fcur, argv = [configmerge; the roconfig; fcur]
  | CopyFile _ dst => dst = main_config
  | RmTree _ | PrintHelp | LockAcquire | LockRelease => False
  end.

(** What [project_delete] may do for the project [name]. *)
Definition delete_event (uri name : pystr) (e : event) : Prop :=
  match e with
  | Log _ _ | RmTree _ => True
  | Net r =>
      r = ReqDeleteProject name uri
      ∨ r = ReqGetConfigValue (lit "sourceRoot") uri
  | _ => False
  end.

(** The sample service when it has no configuration to give. *)
Definition sample_silent : collaborators :=
  {| svc_configuration := λ _ _, None;
     svc_config_value := svc_config_value sample;
     cmd_run := cmd_run sample;
     copy_fails := copy_fails sample;
     mkstemp := mkstemp sample;
     get_command := get_command sample;
     buffer_size := buffer_size sample |}.



(** [projadm.py -b /tmp/inst -U http://x/source -c ConfigMerge -n -u -d foo] *)
Definition sample_dry_delete : arguments :=
  {| arg_debug := false;
     arg_base := sample_base;
     arg_roconfig := None;
     arg_uri := sample_uri;
     arg_configmerge := Some (lit "ConfigMerge");
     arg_upload := true;
     arg_noop := false;
     arg_add := None;
     arg_delete := Some [lit "foo"];
     arg_refresh := false |}.

(** [projadm.py -b /tmp/inst -U http://x/source -c ConfigMerge -u] *)
Definition sample_no_operation : arguments :=
  {| arg_debug := false;
     arg_base := sample_base;
     arg_roconfig := None;
     arg_uri := sample_uri;
     arg_configmerge := Some (lit "ConfigMerge");
     arg_upload := true;
     arg_noop := true;
     arg_add := None;
     arg_delete := None;
     arg_refresh := false |}.

(** [projadm.py -b /tmp/inst -U http://x/source -c ConfigMerge -u -r] *)
Definition sample_refresh_upload : arguments :=
  {| arg_debug := false;
     arg_base := sample_base;
     arg_roconfig := None;
     arg_uri := sample_uri;
     arg_configmerge := Some (lit "ConfigMerge");
     arg_upload := true;
     arg_noop := true;
     arg_add := None;
     arg_delete := None;
     arg_refresh := true |}.

(** ** The library functions on small inputs *)

Example utf8_list_sample :
  utf8_list [0xE9; 0x20AC; 0x1F600]
  = Some (byte_of <$> [0xC3; 0xA9; 0xE2; 0x82; 0xAC; 0xF0; 0x9F; 0x98; 0x80]).
Proof. reflexivity. Qed.

Example utf8_encode_ascii : utf8_encode (lit "<config/>") = Some "<config/>".
Proof. reflexivity. Qed.

Example utf8_encode_surrogate : utf8_encode [0x61; 0xD800] = None.
Proof. reflexivity. Qed.

Example rstrip_sample : rstrip (lit " /src " ++ [0x0A; 0xA0]) = lit " /src".
Proof. reflexivity. Qed.

Example rstrip_blank : rstrip (lit "   ") = [].
Proof. reflexivity. Qed.

Example path_join_relative :
  path_join (lit "/src") [lit "foo"] = lit "/src/foo".
Proof. reflexivity. Qed.

Example path_join_trailing_sep :
  path_join (lit "/src/") [lit "foo"] = lit "/src/foo".
Proof. reflexivity. Qed.

Example path_join_absolute :
  path_join (lit "/src") [lit "/etc"] = lit "/etc".
Proof. reflexivity. Qed.

Example get_config_file_default :
  get_config_file (lit "/var/opengrok")
  = lit "/var/opengrok/etc/configuration.xml".
Proof. reflexivity. Qed.

Example buffered_write_small :
  buffered_write 8 EmptyString EmptyString "abc" = (EmptyString, "abc").
Proof. reflexivity. Qed.

Example buffered_write_large :
  buffered_write 8 EmptyString EmptyString "0123456789"
  = ("0123456789", EmptyString).
Proof. reflexivity. Qed.

Example buffered_write_second :
  buffered_write 8 EmptyString "abcdef" "ghi" = ("abcdef", "ghi").
Proof. reflexivity. Qed.

(** ** Basic facts *)

Lemma join_chars_id (s : pystr) : join_chars s = s.
Proof.
  induction s as [|c s IH]; [done|].
  unfold join_chars in *. rewrite fmap_cons. simpl. by f_equal.
Qed.

Lemma sample_fresh : fresh_names sample.
Proof.
  intros w. simpl. unfold sample_mkstemp.
  destruct (List.find _ _) as [n|] eqn:E.
  - apply List.find_some in E as [_ E]. by apply bool_decide_eq_true_1 in E.
  - apply (not_elem_of_dom (D := gset (list N))), is_fresh.
Qed.

Lemma events_of_app {A} (m : M A) (w : world) (es : list event) :
  trace (m w).2 = trace w ++ es → events_of m w = es.
Proof.
  intros H. unfold events_of. rewrite H. by rewrite drop_app_length.
Qed.

Section combinators.
Context (P : event → Prop).

Lemma emits_ret {A} (a : A) : emits P (ret a).
Proof. intros w. exists []. simpl. by rewrite app_nil_r. Qed.

Lemma emits_sys_exit {A} (c : Z) : emits P (@sys_exit A c).
Proof. intros w. exists []. simpl. by rewrite app_nil_r. Qed.

Lemma emits_raise {A} (e : exception) : emits P (@raise A e).
Proof. intros w. exists []. simpl. by rewrite app_nil_r. Qed.

Lemma emits_ask {A} (f : world → A) : emits P (ask f).
Proof. intros w. exists []. simpl. by rewrite app_nil_r. Qed.

Lemma emits_action (e : event) : P e → emits P (action e).
Proof. intros He w. exists [e]. simpl. by repeat constructor. Qed.

Lemma emits_log (l : level) (s : pystr) :
  P (Log l (MsgStr s)) → emits P (log l s).
Proof. apply emits_action. Qed.

Lemma emits_bind {A B} (m : M A) (k : A → M B) :
  emits P m → (∀ a, emits P (k a)) → emits P (bind m k).
Proof.
  intros Hm Hk w. unfold bind.
  destruct (Hm w) as (es1 & E1 & F1).
  destruct (m w) as [[a|c|e] w1]; simpl in E1; [|by eauto..].
  destruct (Hk a w1) as (es2 & E2 & F2).
  exists (es1 ++ es2). rewrite E2, E1, (assoc_L (++)).
  split; [done|]. by apply Forall_app.
Qed.

Lemma emits_for_each {A} (l : list A) (body : A → M unit) :
  (∀ a, emits P (body a)) → emits P (for_each l body).
Proof.
  intros Hb. induction l as [|a l IH]; simpl.
  - apply emits_ret.
  - apply emits_bind; [apply Hb|]. by intros _.
Qed.

Lemma emits_try_except_Timeout {A} (m handler : M A) :
  emits P m → emits P handler → emits P (try_except_Timeout m handler).
Proof.
  intros Hm Hh w. unfold try_except_Timeout.
  destruct (Hm w) as (es1 & E1 & F1).
  destruct (m w) as [[a|c|e] w1]; simpl in E1; [by eauto..|].
  destruct e; simpl; [by eauto..|].
  destruct (Hh w1) as (es2 & E2 & F2).
  exists (es1 ++ es2). rewrite E2, E1, (assoc_L (++)).
  split; [done|]. by apply Forall_app.
Qed.

Lemma emits_with_lock {A} (body : M A) :
  P LockAcquire → P LockRelease → emits P body → emits P (with_lock body).
Proof.
  intros Ha Hr Hb w. unfold with_lock.
  destruct (lock_taken w).
  { exists []. simpl. by rewrite app_nil_r. }
  destruct (Hb (emit LockAcquire w)) as (es & E & F).
  exists (LockAcquire :: es ++ [LockRelease]). simpl. rewrite E. simpl.
  rewrite <- !(assoc_L (++)). split; [done|].
  constructor; [done|]. apply Forall_app. by repeat constructor.
Qed.

Lemma emits_with_NamedTemporaryFile {A} C (body : pystr → M A) :
  (∀ n, P (TmpCreate n)) → (∀ n, P (TmpUnlink n)) →
  (∀ n, emits P (body n)) → emits P (with_NamedTemporaryFile C body).
Proof.
  intros Hc Hu Hb w. unfold with_NamedTemporaryFile.
  set (o := tmp_open C w).
  destruct (Hb o.1 o.2) as (es & E & F).
  exists (TmpCreate o.1 :: es ++ [TmpUnlink o.1]).
  unfold tmp_close. cbn [snd trace emit set_files set_buffers].
  rewrite E. replace (trace o.2) with (trace w ++ [TmpCreate o.1]) by done.
  rewrite <- !(assoc_L (++)). split; [done|].
  constructor; [done|]. apply Forall_app. by repeat constructor.
Qed.

Lemma emits_weaken {A} (Q : event → Prop) (m : M A) :
  (∀ e, Q e → P e) → emits Q m → emits P m.
Proof.
  intros HQ Hm w. destruct (Hm w) as (es & E & F).
  exists es. split; [done|]. by eapply Forall_impl.
Qed.

Lemma emits_file_write C (name : pystr) (data : string) :
  emits P (file_write C name data).
Proof. intros w. exists []. simpl. by rewrite app_nil_r. Qed.

Lemma emits_get_configuration C (uri : pystr) :
  P (Net (ReqGetConfiguration uri)) → emits P (get_configuration C uri).
Proof.
  intros H w. exists [Net (ReqGetConfiguration uri)].
  simpl. by repeat constructor.
Qed.

Lemma emits_get_config_value C (key uri : pystr) :
  P (Net (ReqGetConfigValue key uri)) → emits P (get_config_value C key uri).
Proof.
  intros H w. exists [Net (ReqGetConfigValue key uri)].
  simpl. by repeat constructor.
Qed.

Lemma emits_Command_execute C (cmd : list pystr) :
  (∀ seen, P (Exec cmd seen)) → emits P (Command_execute C cmd).
Proof. intros H w. eexists [Exec cmd _]. simpl. by repeat constructor. Qed.

Lemma emits_shutil_copyfile C (src dst : pystr) :
  P (CopyFile src dst) → emits P (shutil_copyfile C src dst).
Proof.
  intros H w. exists [CopyFile src dst]. split; [|by repeat constructor].
  unfold shutil_copyfile. repeat case_match; done.
Qed.

Lemma emits_shutil_rmtree (d : pystr) :
  P (RmTree d) → emits P (shutil_rmtree d).
Proof.
  intros H w. exists [RmTree d]. split; [|by repeat constructor].
  unfold shutil_rmtree. case_match; done.
Qed.

End combinators.

Section keeping.

Lemma keeps_ret {A} (a : A) : keeps (ret a).
Proof. by intros w. Qed.

Lemma keeps_sys_exit {A} (c : Z) : keeps (@sys_exit A c).
Proof. by intros w. Qed.

Lemma keeps_raise {A} (e : exception) : keeps (@raise A e).
Proof. by intros w. Qed.

Lemma keeps_ask {A} (f : world → A) : keeps (ask f).
Proof. by intros w. Qed.

Lemma keeps_action (e : event) : keeps (action e).
Proof. by intros w. Qed.

Lemma keeps_log (l : level) (s : pystr) : keeps (log l s).
Proof. by intros w. Qed.

Lemma keeps_get_config_value C (key uri : pystr) :
  keeps (get_config_value C key uri).
Proof. by intros w. Qed.

Lemma keeps_bind {A B} (m : M A) (k : A → M B) :
  keeps m → (∀ a, keeps (k a)) → keeps (bind m k).
Proof.
  intros Hm Hk w. unfold bind.
  destruct (Hm w) as (F1 & D1 & L1).
  destruct (m w) as [[a|c|e] w1]; simpl in *; [|done..].
  destruct (Hk a w1) as (F2 & D2 & L2).
  by rewrite F2, D2, L2.
Qed.

Lemma keeps_for_each {A} (l : list A) (body : A → M unit) :
  (∀ a, keeps (body a)) → keeps (for_each l body).
Proof.
  intros Hb. induction l as [|a l IH]; simpl.
  - apply keeps_ret.
  - apply keeps_bind; [apply Hb|]. by intros _.
Qed.

Lemma keeps_try_except_Timeout {A} (m handler : M A) :
  keeps m → keeps handler → keeps (try_except_Timeout m handler).
Proof.
  intros Hm Hh w. unfold try_except_Timeout.
  destruct (Hm w) as (F1 & D1 & L1).
  destruct (m w) as [[a|c|e] w1]; simpl in *; [done..|].
  destruct e; simpl; [done..|].
  destruct (Hh w1) as (F2 & D2 & L2). by rewrite F2, D2, L2.
Qed.

Lemma keeps_with_lock {A} (body : M A) : keeps body → keeps (with_lock body).
Proof.
  intros Hb w. unfold with_lock. destruct (lock_taken w) eqn:E; [done|].
  destruct (Hb (emit LockAcquire w)) as (F & D & L).
  cbn [fst snd files dirs lock_taken emit] in *. by rewrite F, D, L.
Qed.

(** A temporary file that the body does not touch on disk leaves no
    trace in the filesystem once the block is left. *)
Lemma keeps_with_NamedTemporaryFile {A} C (body : pystr → M A) :
  fresh_names C →
  (∀ n, keeps (body n)) → keeps (with_NamedTemporaryFile C body).
Proof.
  intros Hfresh Hb w. unfold with_NamedTemporaryFile.
  set (o := tmp_open C w).
  destruct (Hb o.1 o.2) as (F & D & L).
  unfold tmp_close.
  cbn [fst snd files dirs lock_taken emit set_files set_buffers].
  rewrite F, D, L. split; [|done].
  subst o. unfold tmp_open.
  cbn [fst snd files dirs lock_taken emit set_files set_buffers].
  rewrite !delete_insert_eq. apply delete_id, Hfresh.
Qed.

End keeping.

(** One step of a proof that a computation only emits permitted events. *)
Ltac emits_step :=
  lazymatch goal with
  | |- emits _ (bind _ _) => apply emits_bind
  | |- emits _ (ret _) => apply emits_ret
  | |- emits _ (sys_exit _) => apply emits_sys_exit
  | |- emits _ (raise _) => apply emits_raise
  | |- emits _ (ask _) => apply emits_ask
  | |- emits _ (path_isfile _) => apply emits_ask
  | |- emits _ (path_isdir _) => apply emits_ask
  | |- emits _ (log _ _) => apply emits_log
  | |- emits _ (action _) => apply emits_action
  | |- emits _ (for_each _ _) => apply emits_for_each
  | |- emits _ (file_write _ _ _) => apply emits_file_write
  | |- emits _ (get_configuration _ _) => apply emits_get_configuration
  | |- emits _ (get_config_value _ _ _) => apply emits_get_config_value
  | |- emits _ (Command_execute _ _) => apply emits_Command_execute
  | |- emits _ (shutil_copyfile _ _ _) => apply emits_shutil_copyfile
  | |- emits _ (shutil_rmtree _) => apply emits_shutil_rmtree
  | |- emits _ (bytearray_of_str _) => unfold bytearray_of_str
  | |- emits _ (bytearray_of_lines _) => unfold bytearray_of_lines
  | |- emits _ (with_NamedTemporaryFile _ _) =>
      apply emits_with_NamedTemporaryFile
  | |- emits _ (with_lock _) => apply emits_with_lock
  | |- emits _ (try_except_Timeout _ _) => apply emits_try_except_Timeout
  | |- emits _ (if ?b then _ else _) => destruct b
  | |- emits _ (match ?x with _ => _ end) => destruct x
  | |- ∀ _, _ => intro
  end.

(** One step of a proof that a computation leaves the filesystem alone. *)
Ltac keeps_step :=
  lazymatch goal with
  | |- keeps (bind _ _) => apply keeps_bind
  | |- keeps (ret _) => apply keeps_ret
  | |- keeps (sys_exit _) => apply keeps_sys_exit
  | |- keeps (raise _) => apply keeps_raise
  | |- keeps (ask _) => apply keeps_ask
  | |- keeps (path_isfile _) => apply keeps_ask
  | |- keeps (path_isdir _) => apply keeps_ask
  | |- keeps (log _ _) => apply keeps_log
  | |- keeps (action _) => apply keeps_action
  | |- keeps (get_config_value _ _ _) => apply keeps_get_config_value
  | |- keeps (for_each _ _) => apply keeps_for_each
  | |- keeps (with_NamedTemporaryFile _ _) =>
      apply keeps_with_NamedTemporaryFile; [assumption|]
  | |- keeps (with_lock _) => apply keeps_with_lock
  | |- keeps (try_except_Timeout _ _) => apply keeps_try_except_Timeout
  | |- keeps (if ?b then _ else _) => destruct b
  | |- keeps (match ?x with _ => _ end) => destruct x
  | |- ∀ _, _ => intro
  end.

(** Symbolic execution: unfolds the monad and the primitives, and nothing
    else. *)
Ltac run :=
  cbv beta iota zeta delta
    [bind ret sys_exit raise action ask log for_each try_except_Timeout
     path_isfile path_isdir file_write tmp_open tmp_close
     with_NamedTemporaryFile shutil_copyfile shutil_rmtree
     get_configuration set_configuration add_project delete_project
     get_config_value Command_execute with_lock
     bytearray_of_str bytearray_of_lines
     fst snd negb orb andb id length Nat.eqb
     truthy option_truthy list_truthy the default from_option];
  cbn [emit set_files set_dirs set_buffers
       files dirs buffers lock_taken trace fst snd].

(** ** Dry runs *)

Section dry_run.
Context (C : collaborators).

Lemma exec_command_dry (cmd : list pystr) (msg : pystr) :
  emits dry_event (exec_command C false cmd msg)
  ∧ keeps (exec_command C false cmd msg).
Proof.
  unfold exec_command. simpl.
  split; [repeat emits_step; done | repeat keeps_step].
Qed.

Lemma install_config_dry (src dst : pystr) :
  emits dry_event (install_config C false src dst)
  ∧ keeps (install_config C false src dst).
Proof.
  unfold install_config. simpl.
  split; [repeat emits_step; done | repeat keeps_step].
Qed.

Lemma project_add_dry (project uri : pystr) :
  emits dry_event (project_add false project uri)
  ∧ keeps (project_add false project uri).
Proof.
  unfold project_add.
  split; [repeat emits_step; done | repeat keeps_step].
Qed.

Lemma project_delete_dry (project : option pystr) (uri : pystr) :
  emits dry_event (project_delete C false project uri)
  ∧ keeps (project_delete C false project uri).
Proof.
  unfold project_delete. split.
  - repeat emits_step; done.
  - repeat keeps_step.
Qed.

Lemma config_refresh_dry (basedir uri configmerge : pystr)
  (roconfig : option pystr) :
  fresh_names C →
  emits dry_event (config_refresh C false basedir uri configmerge roconfig)
  ∧ keeps (config_refresh C false basedir uri configmerge roconfig).
Proof.
  intros Hfresh. unfold config_refresh, exec_command, install_config.
  cbn [negb]. split.
  - repeat emits_step; done.
  - repeat keeps_step.
Qed.

(** The whole program in a dry run ([-n], which makes [args.noop]
    false). *)
Lemma main_dry (args : arguments) :
  fresh_names C → arg_noop args = false →
  emits dry_main_event (main C args) ∧ keeps (main C args).
Proof.
  intros Hfresh Hnoop.
  assert (Hweak : ∀ e, dry_event e → dry_main_event e) by (by intros []).
  unfold main, locked_section, preflight. rewrite Hnoop. split.
  - repeat emits_step; try done.
    all: apply (emits_weaken _ dry_event _ Hweak).
    all: first [ apply project_add_dry | apply project_delete_dry
               | by apply config_refresh_dry ].
  - repeat keeps_step.
    all: first [ apply project_add_dry | apply project_delete_dry
               | by apply config_refresh_dry ].
Qed.

End dry_run.

(** ** Paths *)

Lemma join_step_plain (p b : pystr) :
  truthy p = true → endswith_sep p = false → startswith_sep b = false →
  join_step p b = p ++ sep :: b.
Proof. intros Hp He Hb. unfold join_step. by rewrite Hb, Hp, He. Qed.

(** For a base directory written without a trailing slash the configuration
    file is [<base>/etc/configuration.xml]. *)
Lemma get_config_file_plain (basedir : pystr) :
  truthy basedir = true → endswith_sep basedir = false →
  get_config_file basedir = basedir ++ lit "/etc/configuration.xml".
Proof.
  intros Ht He. unfold get_config_file, path_join. cbn [foldl].
  rewrite (join_step_plain basedir) by done.
  rewrite join_step_plain; [by rewrite <- (assoc_L (++))| | |done].
  - by destruct basedir.
  - unfold endswith_sep. by rewrite last_app_cons.
Qed.

(** ** The claims *)

(** C1, as stated, fails: a dry run of [project_delete] for project [foo]
    does more than log, its second event is the request to the service for
    the value of [sourceRoot]. *)
Lemma dry_run_delete_queries_service :
  events_of (project_delete sample false (Some (lit "foo")) sample_uri)
    sample_world !! 1%nat
  = Some (Net (ReqGetConfigValue (lit "sourceRoot") sample_uri))
  ∧ ¬ Forall is_log
        (events_of (project_delete sample false (Some (lit "foo")) sample_uri)
           sample_world).
Proof.
  assert (E : events_of
                (project_delete sample false (Some (lit "foo")) sample_uri)
                sample_world !! 1%nat
              = Some (Net (ReqGetConfigValue (lit "sourceRoot") sample_uri)))
    by (by vm_compute).
  split; [exact E|].
  intros F. rewrite Forall_lookup in F. exact (F _ _ E).
Qed.

(** C1, amended: in a dry run ([doit = false]) each of [exec_command],
    [install_config], [project_add], [project_delete] and [config_refresh]
    adds nothing to the trace but log records, the look-up of [sourceRoot]
    and the creation and removal of temporary files (so: no other request to
    the service, no subprocess, no copy, no [rmtree]), and leaves files and
    directories as they were. *)
Theorem dry_run_frame (C : collaborators) :
  fresh_names C →
  (∀ cmd msg,
     emits dry_event (exec_command C false cmd msg)
     ∧ keeps (exec_command C false cmd msg))
  ∧ (∀ src dst,
       emits dry_event (install_config C false src dst)
       ∧ keeps (install_config C false src dst))
  ∧ (∀ project uri,
       emits dry_event (project_add false project uri)
       ∧ keeps (project_add false project uri))
  ∧ (∀ project uri,
       emits dry_event (project_delete C false project uri)
       ∧ keeps (project_delete C false project uri))
  ∧ (∀ basedir uri configmerge roconfig,
       emits dry_event
         (config_refresh C false basedir uri configmerge roconfig)
       ∧ keeps (config_refresh C false basedir uri configmerge roconfig)).
Proof.
  intros Hfresh. repeat split.
  all: first
    [ apply exec_command_dry | apply install_config_dry
    | apply project_add_dry | apply project_delete_dry
    | by apply config_refresh_dry ].
Qed.

Lemma dry_run_frame_witness :
  fresh_names sample
  ∧ emits dry_event
      (config_refresh sample false sample_base sample_uri (lit "ConfigMerge")
         (Some (lit "/ro.xml")))
  ∧ keeps
      (config_refresh sample false sample_base sample_uri (lit "ConfigMerge")
         (Some (lit "/ro.xml"))).
Proof.
  split; [exact sample_fresh|].
  apply (dry_run_frame sample sample_fresh).
Defined.

(** C5: [project_delete] called with a missing or empty project name raises
    the "missing project" exception and leaves the world, trace included,
    as it was: neither [delete_project] nor the look-up of [sourceRoot] is
    sent to the service. *)
Theorem project_delete_missing_project (C : collaborators) (doit : bool)
  (project : option pystr) (uri : pystr) (w : world) :
  project = None ∨ project = Some [] →
  project_delete C doit project uri w
  = (Raise (PyException
              (lit "invalid call to project_delete(): missing project")), w).
Proof. by intros [-> | ->]. Qed.

Lemma project_delete_missing_project_witness :
  (Some ([] : pystr) = None ∨ Some ([] : pystr) = Some [])
  ∧ project_delete sample true (Some []) sample_uri sample_world
    = (Raise (PyException
                (lit "invalid call to project_delete(): missing project")),
       sample_world).
Proof.
  split; [by right|].
  apply (project_delete_missing_project sample true (Some [])). by right.
Defined.

(** C6: the configuration file is the join of the base directory with
    [etc] and [configuration.xml]; when no such file exists [config_refresh]
    logs the error and exits with code 1, nothing having been asked of the
    service; and whatever [config_refresh] copies, it copies to that path. *)
Theorem config_refresh_requires_config_file (C : collaborators) (doit : bool)
  (basedir uri configmerge : pystr) (roconfig : option pystr) (w : world) :
  files w !! get_config_file basedir = None →
  get_config_file basedir
  = path_join basedir [lit "etc"; lit "configuration.xml"]
  ∧ config_refresh C doit basedir uri configmerge roconfig w
    = (Exit 1,
       emit (Log ERROR (MsgStr (lit "file " ++ get_config_file basedir
                                ++ lit " does not exist"))) w)
  ∧ emits (installs_into (get_config_file basedir))
      (config_refresh C doit basedir uri configmerge roconfig).
Proof.
  intros Hnone. split; [done|]. split.
  - unfold config_refresh. run.
    rewrite bool_decide_eq_false_2; [done|].
    rewrite Hnone. by intros [? ?].
  - unfold config_refresh, exec_command, install_config.
    repeat emits_step; done.
Qed.

Lemma config_refresh_requires_config_file_witness :
  files sample_world !! get_config_file (lit "/var/opengrok") = None
  ∧ config_refresh sample true (lit "/var/opengrok") sample_uri
      (lit "ConfigMerge") None sample_world
    = (Exit 1,
       emit (Log ERROR (MsgStr (lit "file /var/opengrok/etc/configuration.xml does not exist")))
         sample_world).
Proof.
  split; [by vm_compute|].
  apply (config_refresh_requires_config_file sample true (lit "/var/opengrok")).
  by vm_compute.
Defined.

(** C7: with [doit = true], [exec_command] runs the command; when it did not
    finish or its return code is not 0, the message and the captured output
    are logged as errors and the program exits with code 1; when it finished
    with return code 0, the captured output is returned. *)
Theorem exec_command_contract (C : collaborators) (cmd : list pystr)
  (msg : pystr) (w : world) :
  let r := cmd_run C w cmd in
  let started := emit (Exec cmd ((files w !!.) <$> cmd)) w in
  (getstate r ≠ FINISHED ∨ getretcode r ≠ Some 0%Z →
   exec_command C true cmd msg w
   = (Exit 1,
      emit (Log ERROR (MsgLines (getoutput r)))
        (emit (Log ERROR (MsgStr msg)) started)))
  ∧ (getstate r = FINISHED ∧ getretcode r = Some 0%Z →
     exec_command C true cmd msg w = (Return (Some (getoutput r)), started)).
Proof.
  intros r started. unfold exec_command. run. fold r. split.
  - intros [H | H].
    + by rewrite (bool_decide_eq_false_2 _ H).
    + rewrite (bool_decide_eq_false_2 _ H). by case_bool_decide.
  - intros [H1 H2]. by rewrite !bool_decide_eq_true_2.
Qed.

Lemma exec_command_contract_witness :
  exec_command sample true [lit "ConfigMerge"; lit "/ro.xml"; lit "/tmp/cur"]
    (lit "cannot merge configuration") sample_world
  = (Return (Some [lit "<merged/>"]),
     emit (Exec [lit "ConfigMerge"; lit "/ro.xml"; lit "/tmp/cur"]
             [None; Some "<ro/>"; None]) sample_world)
  ∧ exec_command sample_failing_merge true
      [lit "ConfigMerge"; lit "/ro.xml"; lit "/tmp/cur"]
      (lit "cannot merge configuration") sample_world
    = (Exit 1,
       emit (Log ERROR (MsgLines [lit "error"]))
         (emit (Log ERROR (MsgStr (lit "cannot merge configuration")))
            (emit (Exec [lit "ConfigMerge"; lit "/ro.xml"; lit "/tmp/cur"]
                     [None; Some "<ro/>"; None]) sample_world))).
Proof.
  split.
  - apply (exec_command_contract sample
             [lit "ConfigMerge"; lit "/ro.xml"; lit "/tmp/cur"]).
    by split.
  - apply (exec_command_contract sample_failing_merge
             [lit "ConfigMerge"; lit "/ro.xml"; lit "/tmp/cur"]).
    by right.
Defined.

(** C10, as stated, fails: a dry run of [config_refresh] with a read-only
    configuration does not complete when the configuration file is missing;
    it exits with code 1. *)
Lemma dry_refresh_without_config_file_exits :
  (config_refresh sample false (lit "/var/opengrok") sample_uri
     (lit "ConfigMerge") (Some (lit "/ro.xml")) sample_world).1
  = Exit 1.
Proof. by vm_compute. Qed.

(** C10, amended: when the configuration file exists, a dry run of
    [config_refresh] with a read-only configuration returns normally.
    Nothing is fetched, the merge command is only logged and
    [exec_command] returns [None]; the two temporary files are created and
    removed, nothing is written to them and nothing is installed, so the
    absent merge result is never joined. *)
Theorem config_refresh_dry_merge (C : collaborators)
  (basedir uri configmerge ro : pystr) (w : world) :
  is_Some (files w !! get_config_file basedir) →
  truthy ro = true →
  (∀ cmd msg w0,
     exec_command C false cmd msg w0
     = (Return None, emit (Log INFO (MsgCmd cmd)) w0))
  ∧ ∃ fcur fmerged w',
      config_refresh C false basedir uri configmerge (Some ro) w
      = (Return tt, w')
      ∧ trace w' = trace w ++
          [TmpCreate fcur;
           Log DEBUG
             (MsgStr (lit "Temporary file for current config: " ++ fcur));
           Log INFO
             (MsgStr (lit "Refreshing configuration (merging with read-only config)"));
           Log INFO (MsgCmd [configmerge; ro; fcur]);
           TmpCreate fmerged;
           Log DEBUG
             (MsgStr (lit "Temporary file for merged config: " ++ fmerged));
           TmpUnlink fmerged;
           TmpUnlink fcur].
Proof.
  intros Hfile Hro. split; [done|].
  unfold config_refresh, exec_command, install_config. run.
  rewrite bool_decide_eq_true_2 by done.
  destruct ro as [|c ro]; [done|].
  eexists _, _, _. split; [reflexivity|]. run.
  by rewrite <- !(assoc_L (++)).
Qed.

Lemma config_refresh_dry_merge_witness :
  is_Some (files sample_world !! get_config_file sample_base)
  ∧ truthy (lit "/ro.xml") = true
  ∧ ∃ fcur fmerged w',
      config_refresh sample false sample_base sample_uri (lit "ConfigMerge")
        (Some (lit "/ro.xml")) sample_world
      = (Return tt, w')
      ∧ trace w' = trace sample_world ++
          [TmpCreate fcur;
           Log DEBUG
             (MsgStr (lit "Temporary file for current config: " ++ fcur));
           Log INFO
             (MsgStr (lit "Refreshing configuration (merging with read-only config)"));
           Log INFO (MsgCmd [lit "ConfigMerge"; lit "/ro.xml"; fcur]);
           TmpCreate fmerged;
           Log DEBUG
             (MsgStr (lit "Temporary file for merged config: " ++ fmerged));
           TmpUnlink fmerged;
           TmpUnlink fcur].
Proof.
  assert (H1 : is_Some (files sample_world !! get_config_file sample_base))
    by (vm_compute; by eexists).
  assert (H2 : truthy (lit "/ro.xml") = true) by done.
  split; [exact H1|]. split; [exact H2|].
  exact (proj2 (config_refresh_dry_merge sample sample_base sample_uri
                  (lit "ConfigMerge") (lit "/ro.xml") sample_world H1 H2)).
Defined.

(** The run of [project_delete] for a project name that is present, when
    the service answers the look-up of [sourceRoot] with a list whose first
    element is [first]. *)
Lemma project_delete_trace (C : collaborators) (doit : bool)
  (name uri first : pystr) (rest : list pystr) (w : world) :
  name ≠ [] →
  (∀ w', svc_config_value C w' (lit "sourceRoot") uri = Some (first :: rest)) →
  let sourcedir := path_join (rstrip first) [name] in
  trace (project_delete C doit (Some name) uri w).2
  = trace w
    ++ [Log INFO (MsgStr (lit "Deleting project " ++ name
                          ++ lit " and its index data"))]
    ++ (if doit then [Net (ReqDeleteProject name uri)] else [])
    ++ [Net (ReqGetConfigValue (lit "sourceRoot") uri);
        Log DEBUG (MsgStr (lit "Source root = " ++ rstrip first))]
    ++ (if truthy (rstrip first) then
          Log DEBUG (MsgStr (lit "Removing directory tree " ++ sourcedir))
          :: (if doit then
                [Log INFO (MsgStr (lit "Removing source code under "
                                   ++ sourcedir));
                 RmTree sourcedir]
              else [])
        else []).
Proof.
  intros Hname Hsrc sourcedir. subst sourcedir.
  unfold project_delete. destruct name as [|c name]; [done|].
  destruct doit; run; rewrite Hsrc; run.
  all: destruct (rstrip first) as [|c' s']; run.
  all: try case_bool_decide; run.
  all: by rewrite <- ?(assoc_L (++)).
Qed.

(** C4: with [doit = true], a project name that is present and a service
    that reports a source root that is not empty, the request
    [delete_project] precedes the removal of the directory
    [sourceRoot/name], which is the last thing done.  Whenever the service
    reports no source root, an empty list or a first value that is empty
    once stripped, [project_delete] raises and no directory is removed. *)
Theorem project_delete_order (C : collaborators) (uri : pystr)
  (values : option (list pystr)) (w : world) :
  (∀ w', svc_config_value C w' (lit "sourceRoot") uri = values) →
  (∀ name first rest,
     name ≠ [] → values = Some (first :: rest) → rstrip first ≠ [] →
     let sourcedir := path_join (rstrip first) [name] in
     trace (project_delete C true (Some name) uri w).2
     = trace w
       ++ [Log INFO (MsgStr (lit "Deleting project " ++ name
                             ++ lit " and its index data"));
           Net (ReqDeleteProject name uri);
           Net (ReqGetConfigValue (lit "sourceRoot") uri);
           Log DEBUG (MsgStr (lit "Source root = " ++ rstrip first));
           Log DEBUG (MsgStr (lit "Removing directory tree " ++ sourcedir));
           Log INFO (MsgStr (lit "Removing source code under " ++ sourcedir));
           RmTree sourcedir])
  ∧ (∀ doit project,
       values = None ∨ values = Some []
       ∨ (∃ first rest, values = Some (first :: rest) ∧ rstrip first = []) →
       ∃ e w' es,
         project_delete C doit project uri w = (Raise e, w')
         ∧ trace w' = trace w ++ es
         ∧ removed_dirs es = []).
Proof.
  intros Hsrc. split.
  - intros name first rest Hname -> Hfirst sourcedir.
    rewrite (project_delete_trace C true name uri first rest w Hname Hsrc).
    destruct (rstrip first); [done|]. by rewrite <- ?(assoc_L (++)).
  - intros doit project Hvalues.
    unfold project_delete.
    destruct project as [[|c name]|]; run.
    1, 3: by eexists _, _, []; rewrite app_nil_r.
    destruct Hvalues as [-> | [-> | (first & rest & -> & Hempty)]].
    all: destruct doit; run; rewrite Hsrc; run; rewrite ?Hempty; run.
    all: eexists _, _, _; split; [reflexivity|]; run.
    all: rewrite <- ?(assoc_L (++)); split; [reflexivity|]; done.
Qed.

Lemma project_delete_order_witness :
  (∀ w', svc_config_value sample w' (lit "sourceRoot") sample_uri
         = Some [lit "/src"])
  ∧ trace (project_delete sample true (Some (lit "foo")) sample_uri
             sample_world).2
    = [Log INFO (MsgStr (lit "Deleting project foo and its index data"));
       Net (ReqDeleteProject (lit "foo") sample_uri);
       Net (ReqGetConfigValue (lit "sourceRoot") sample_uri);
       Log DEBUG (MsgStr (lit "Source root = /src"));
       Log DEBUG (MsgStr (lit "Removing directory tree /src/foo"));
       Log INFO (MsgStr (lit "Removing source code under /src/foo"));
       RmTree (lit "/src/foo")].
Proof.
  assert (H : ∀ w', svc_config_value sample w' (lit "sourceRoot") sample_uri
                    = Some [lit "/src"]) by done.
  split; [exact H|].
  exact (proj1 (project_delete_order sample sample_uri (Some [lit "/src"])
                  sample_world H)
           (lit "foo") (lit "/src") [] ltac:(done) eq_refl ltac:(done)).
Defined.

(** C9: when the look-up of [sourceRoot] succeeds, the directories
    [project_delete] removes are determined by the first value alone: it is
    the join of that value, stripped on the right, with the project name (and
    nothing is removed in a dry run or when the stripped value is empty).
    Two services that agree on the first value remove the same. *)
Theorem project_delete_first_value (C C' : collaborators) (doit : bool)
  (name uri first : pystr) (rest rest' : list pystr) (w : world) :
  name ≠ [] →
  (∀ w', svc_config_value C w' (lit "sourceRoot") uri = Some (first :: rest)) →
  (∀ w', svc_config_value C' w' (lit "sourceRoot") uri
         = Some (first :: rest')) →
  removed_dirs (events_of (project_delete C doit (Some name) uri) w)
  = (if doit && truthy (rstrip first)
     then [path_join (rstrip first) [name]] else [])
  ∧ removed_dirs (events_of (project_delete C' doit (Some name) uri) w)
    = removed_dirs (events_of (project_delete C doit (Some name) uri) w).
Proof.
  intros Hname Hsrc Hsrc'.
  rewrite (events_of_app _ _ _
             (project_delete_trace C doit name uri first rest w Hname Hsrc)).
  rewrite (events_of_app _ _ _
             (project_delete_trace C' doit name uri first rest' w Hname
                Hsrc')).
  split; [|done].
  destruct doit, (rstrip first); done.
Qed.

Lemma project_delete_first_value_witness :
  lit "foo" ≠ []
  ∧ removed_dirs
      (events_of (project_delete sample true (Some (lit "foo")) sample_uri)
         sample_world)
    = [lit "/src/foo"]
  ∧ removed_dirs
      (events_of
         (project_delete sample_two_roots true (Some (lit "foo")) sample_uri)
         sample_world)
    = removed_dirs
        (events_of (project_delete sample true (Some (lit "foo")) sample_uri)
           sample_world).
Proof.
  split; [done|].
  apply (project_delete_first_value sample sample_two_roots true (lit "foo")
           sample_uri (lit "/src") [] [lit "/elsewhere"] sample_world);
    done.
Defined.

(** The checks before the lock is taken only log, and change nothing. *)
Lemma preflight_quiet (C : collaborators) (args : arguments) :
  emits is_log (preflight C args) ∧ keeps (preflight C args).
Proof.
  unfold preflight. split; [repeat emits_step; done | repeat keeps_step].
Qed.

(** C8: when the program gets as far as taking the lock and the lock is
    held by another instance, it logs the warning and exits with code 1.
    Up to then it has only logged, and files and directories are as they
    were: nothing of [locked_section] (add, delete, refresh, upload) has
    run. *)
Theorem main_lock_contention (C : collaborators) (args : arguments)
  (w w1 : world) (configmerge_file : pystr) :
  preflight C args w = (Return configmerge_file, w1) →
  lock_taken w = true →
  main C args w
  = (Exit 1,
     emit (Log WARNING (MsgStr (lit "Already running, exiting."))) w1)
  ∧ (∃ logs, trace w1 = trace w ++ logs ∧ Forall is_log logs)
  ∧ files w1 = files w ∧ dirs w1 = dirs w.
Proof.
  intros Hpre Hlock.
  destruct (preflight_quiet C args) as [He Hk].
  specialize (He w). specialize (Hk w). rewrite Hpre in He, Hk.
  simpl in He, Hk. destruct Hk as (Hf & Hd & Hl).
  split; [|by split].
  unfold main, bind at 1. rewrite Hpre.
  unfold try_except_Timeout, with_lock. rewrite Hl, Hlock. by run.
Qed.

Lemma main_lock_contention_witness :
  lock_taken sample_world_locked = true
  ∧ (main sample sample_refresh sample_world_locked).1 = Exit 1
  ∧ trace (main sample sample_refresh sample_world_locked).2
    = [Log DEBUG (MsgStr (lit "Using /tmp/inst as instance base"));
       Log WARNING (MsgStr (lit "Already running, exiting."))].
Proof.
  split; [done|].
  rewrite (proj1 (main_lock_contention sample sample_refresh
                    sample_world_locked
                    (preflight sample sample_refresh sample_world_locked).2
                    (lit "ConfigMerge") ltac:(by vm_compute) eq_refl)).
  by vm_compute.
Defined.

(** ** Refreshing the configuration file *)

Lemma bind_runs {A B} (m : M A) (k : A → M B) (a : A) (w w1 : world)
  (res : outcome B * world) :
  m w = (Return a, w1) → k a w1 = res → bind m k w = res.
Proof. intros Hm Hk. unfold bind. by rewrite Hm. Qed.

Lemma with_NamedTemporaryFile_runs {A} (C : collaborators)
  (body : pystr → M A) (r : outcome A) (w w2 : world) :
  body (mkstemp C w) (tmp_open C w).2 = (r, w2) →
  with_NamedTemporaryFile C body w = (r, tmp_close (mkstemp C w) w2).
Proof.
  intros Hb. unfold with_NamedTemporaryFile.
  change (tmp_open C w).1 with (mkstemp C w). by rewrite Hb.
Qed.

Lemma files_tmp_open (C : collaborators) (w : world) :
  files (tmp_open C w).2 = <[mkstemp C w:=EmptyString]> (files w).
Proof. done. Qed.

(** What the first [write] to a new buffered file leaves on disk and in the
    buffer. *)
Lemma buffered_write_first (bsize : nat) (data : string) :
  buffered_write bsize EmptyString EmptyString data
  = (visible bsize data, pending bsize data).
Proof.
  unfold buffered_write, visible, pending.
  cbn [String.length String.append]. rewrite Nat.sub_0_r.
  destruct (Nat.leb_spec (String.length data) bsize) as [H | H]; [done|].
  by rewrite (proj2 (Nat.ltb_lt _ _) H).
Qed.

Lemma file_write_first (C : collaborators) (n : pystr) (data : string)
  (w : world) :
  files w !! n = Some EmptyString → buffers w !! n = Some EmptyString →
  file_write C n data w
  = (Return tt,
     set_buffers (<[n:=pending (buffer_size C) data]> (buffers w))
       (set_files (<[n:=visible (buffer_size C) data]> (files w)) w)).
Proof.
  intros Hf Hb. unfold file_write, on_disk, buffered.
  rewrite Hf, Hb. cbn [default from_option id]. by rewrite buffered_write_first.
Qed.

Lemma install_config_copies (C : collaborators) (src dst : pystr)
  (data : string) (w : world) :
  src ≠ dst → files w !! src = Some data →
  (∀ w', copy_fails C w' src dst = None) →
  install_config C true src dst w
  = (Return tt,
     set_files (<[dst:=data]> (files w))
       (emit (CopyFile src dst)
          (emit (Log DEBUG (MsgStr (lit "Copying " ++ src ++ lit " to " ++ dst)))
             w))).
Proof.
  intros Hne Hsrc Hcopy. unfold install_config. run.
  rewrite bool_decide_eq_false_2 by done. by rewrite Hsrc, Hcopy.
Qed.

(** What [exec_command] does when it is not a dry run. *)
Lemma exec_command_runs (C : collaborators) (cmd : list pystr) (msg : pystr)
  (w : world) :
  let r := cmd_run C w cmd in
  let started := emit (Exec cmd ((files w !!.) <$> cmd)) w in
  exec_command C true cmd msg w
  = if bool_decide (getstate r = FINISHED)
       && bool_decide (getretcode r = Some 0%Z)
    then (Return (Some (getoutput r)), started)
    else (Exit 1,
          emit (Log ERROR (MsgLines (getoutput r)))
            (emit (Log ERROR (MsgStr msg)) started)).
Proof.
  intros r started. unfold exec_command. run. fold r.
  repeat case_bool_decide; done.
Qed.

(** Refresh without a read-only configuration, when nothing fails: the
    configuration file receives what is on disk of the temporary file at
    the time of the copy, which is the fetched text only when that is longer
    than the buffer. *)
Lemma config_refresh_plain (C : collaborators)
  (basedir uri configmerge text : pystr) (roconfig : option pystr)
  (data old : string) (w : world) :
  fresh_names C →
  files w !! get_config_file basedir = Some old →
  truthy roconfig = false →
  svc_configuration C w uri = Some text → text ≠ [] →
  utf8_encode text = Some data →
  (∀ w' src, copy_fails C w' src (get_config_file basedir) = None) →
  ∃ w',
    config_refresh C true basedir uri configmerge roconfig w = (Return tt, w')
    ∧ files w'
      = <[get_config_file basedir := visible (buffer_size C) data]> (files w).
Proof.
  intros Hfresh Hold Hro Htext Hne Hdata Hcopy.
  set (w1 := emit (Net (ReqGetConfiguration uri)) w).
  set (fcur := mkstemp C w1).
  assert (Hcur : files w !! fcur = None) by apply (Hfresh w1).
  assert (Hdiff : fcur ≠ get_config_file basedir) by congruence.
  eexists. split.
  - unfold config_refresh.
    eapply bind_runs; [reflexivity|]. cbn beta.
    rewrite bool_decide_eq_true_2 by (by rewrite Hold). cbn [negb].
    eapply bind_runs.
    { eapply bind_runs; [reflexivity|]. cbn beta. rewrite Htext.
      destruct text; [done|]. reflexivity. }
    apply with_NamedTemporaryFile_runs. fold w1 fcur.
    eapply bind_runs; [reflexivity|].
    eapply bind_runs.
    { eapply bind_runs.
      - unfold bytearray_of_str. rewrite join_chars_id, Hdata. reflexivity.
      - apply file_write_first; cbn; apply lookup_insert_eq. }
    rewrite Hro. cbn [negb].
    eapply bind_runs; [reflexivity|].
    apply install_config_copies; [done| |done].
    cbn. apply lookup_insert_eq.
  - unfold tmp_close.
    cbn [files buffers emit set_files set_buffers]. fold w1 fcur.
    rewrite delete_insert_eq, (delete_insert_ne _ _ _ _ Hdiff).
    rewrite delete_insert_eq, files_tmp_open. fold fcur.
    by rewrite delete_insert_eq, delete_id.
Qed.

(** The inner [with] block of the merge: the output of the merge tool is
    written to a second temporary file, which is then copied to the
    configuration file [main_config]. *)
Lemma merged_block_runs (C : collaborators) (main_config : pystr)
  (out : list pystr) (merged old : string) (w : world) :
  fresh_names C →
  files w !! main_config = Some old →
  utf8_encode (join_lines out) = Some merged →
  (∀ w' src, copy_fails C w' src main_config = None) →
  ∃ w',
    with_NamedTemporaryFile C (λ fmerged,
      log DEBUG (lit "Temporary file for merged config: " ++ fmerged) >>
      let! data := bytearray_of_lines (Some out) in
      file_write C fmerged data >>
      install_config C true fmerged main_config) w
    = (Return tt, w')
    ∧ trace w' = trace w ++
        [TmpCreate (mkstemp C w);
         Log DEBUG
           (MsgStr (lit "Temporary file for merged config: " ++ mkstemp C w));
         Log DEBUG
           (MsgStr (lit "Copying " ++ mkstemp C w ++ lit " to "
                    ++ main_config));
         CopyFile (mkstemp C w) main_config;
         TmpUnlink (mkstemp C w)]
    ∧ files w' = <[main_config := visible (buffer_size C) merged]> (files w).
Proof.
  intros Hfresh Hold Hmerged Hcopy.
  set (fmerged := mkstemp C w).
  assert (Hnew : files w !! fmerged = None) by apply Hfresh.
  assert (Hdiff : fmerged ≠ main_config) by congruence.
  eexists. split; [|split].
  - apply with_NamedTemporaryFile_runs. fold fmerged.
    eapply bind_runs; [reflexivity|].
    eapply bind_runs.
    { unfold bytearray_of_lines. rewrite Hmerged. reflexivity. }
    eapply bind_runs.
    { apply file_write_first; cbn; apply lookup_insert_eq. }
    apply install_config_copies; [done| |done].
    cbn. apply lookup_insert_eq.
  - unfold tmp_close, tmp_open.
    cbn [trace emit set_files set_buffers fst snd]. fold fmerged.
    by rewrite <- !(assoc_L (++)).
  - unfold tmp_close.
    cbn [files buffers emit set_files set_buffers]. fold fmerged.
    rewrite delete_insert_eq, (delete_insert_ne _ _ _ _ Hdiff).
    rewrite delete_insert_eq, files_tmp_open. fold fmerged.
    by rewrite delete_insert_eq, delete_id.
Qed.

(** Refresh with a read-only configuration, when nothing fails: the merge
    tool is started on the read-only configuration and the temporary file,
    of which it finds on disk the fetched text only when that is longer
    than the buffer; and the configuration file receives what is on disk of
    the second temporary file at the time of the copy, which is the output
    of the merge tool only when that is longer than the buffer. *)
Lemma config_refresh_merge (C : collaborators)
  (basedir uri configmerge ro text : pystr) (out : list pystr)
  (data merged old : string) (w : world) :
  fresh_names C →
  files w !! get_config_file basedir = Some old →
  truthy ro = true →
  svc_configuration C w uri = Some text → text ≠ [] →
  utf8_encode text = Some data →
  (∀ w' argv, cmd_run C w' argv = CmdResult FINISHED (Some 0%Z) out) →
  utf8_encode (join_lines out) = Some merged →
  (∀ w' src, copy_fails C w' src (get_config_file basedir) = None) →
  ∃ fcur fmerged seen w',
    config_refresh C true basedir uri configmerge (Some ro) w = (Return tt, w')
    ∧ trace w' = trace w ++
        [Net (ReqGetConfiguration uri);
         TmpCreate fcur;
         Log DEBUG
           (MsgStr (lit "Temporary file for current config: " ++ fcur));
         Log INFO
           (MsgStr (lit "Refreshing configuration (merging with read-only config)"));
         Exec [configmerge; ro; fcur] seen;
         TmpCreate fmerged;
         Log DEBUG
           (MsgStr (lit "Temporary file for merged config: " ++ fmerged));
         Log DEBUG
           (MsgStr (lit "Copying " ++ fmerged ++ lit " to "
                    ++ get_config_file basedir));
         CopyFile fmerged (get_config_file basedir);
         TmpUnlink fmerged;
         TmpUnlink fcur]
    ∧ seen !! 2%nat = Some (Some (visible (buffer_size C) data))
    ∧ files w'
      = <[get_config_file basedir := visible (buffer_size C) merged]>
          (files w).
Proof.
  intros Hfresh Hold Hro Htext Hne Hdata Hrun Hmerged Hcopy.
  set (main_config := get_config_file basedir) in *.
  set (w1 := emit (Net (ReqGetConfiguration uri)) w).
  set (fcur := mkstemp C w1).
  assert (Hcur : files w !! fcur = None) by apply (Hfresh w1).
  assert (Hdiff : fcur ≠ main_config) by congruence.
  set (w2 :=
    emit (Log INFO (MsgStr (lit "Refreshing configuration (merging with read-only config)")))
      (set_buffers
         (<[fcur:=pending (buffer_size C) data]>
            (<[fcur:=EmptyString]> (buffers w1)))
         (set_files
            (<[fcur:=visible (buffer_size C) data]>
               (<[fcur:=EmptyString]> (files w1)))
            (emit (Log DEBUG (MsgStr (lit "Temporary file for current config: "
                                      ++ fcur)))
               (emit (TmpCreate fcur) w1))))).
  set (seen := (files w2 !!.) <$> [configmerge; ro; fcur]).
  set (w3 := emit (Exec [configmerge; ro; fcur] seen) w2).
  assert (Hmain3 : files w3 !! main_config = Some old).
  { cbn. by rewrite !lookup_insert_ne. }
  destruct (merged_block_runs C main_config out merged old w3 Hfresh Hmain3
              Hmerged Hcopy) as (w4 & Hblock & Htrace4 & Hfiles4).
  exists fcur, (mkstemp C w3), seen, (tmp_close fcur w4).
  split; [|split; [|split]].
  - unfold config_refresh. fold main_config.
    eapply bind_runs; [reflexivity|]. cbn beta.
    rewrite bool_decide_eq_true_2 by (by rewrite Hold). cbn [negb].
    eapply bind_runs.
    { eapply bind_runs; [reflexivity|]. cbn beta. rewrite Htext.
      destruct text; [done|]. reflexivity. }
    apply with_NamedTemporaryFile_runs. fold w1 fcur.
    eapply bind_runs; [reflexivity|].
    eapply bind_runs.
    { eapply bind_runs.
      - unfold bytearray_of_str. rewrite join_chars_id, Hdata. reflexivity.
      - apply file_write_first; cbn; apply lookup_insert_eq. }
    cbn [truthy option_truthy]. rewrite Hro. cbn [negb].
    eapply bind_runs; [reflexivity|].
    eapply bind_runs.
    { rewrite exec_command_runs, Hrun. reflexivity. }
    exact Hblock.
  - unfold tmp_close. cbn [trace emit set_files set_buffers].
    rewrite Htrace4. cbn [trace emit set_files set_buffers w3 w2 w1].
    by rewrite <- !(assoc_L (++)).
  - cbn. by rewrite lookup_insert_eq.
  - unfold tmp_close. cbn [files buffers emit set_files set_buffers].
    rewrite Hfiles4. cbn [files emit set_files set_buffers w3 w2 w1].
    rewrite delete_insert_eq, (delete_insert_ne _ _ _ _ Hdiff).
    by rewrite !delete_insert_eq, delete_id.
Qed.

(** C2: refresh without a read-only configuration is to leave the fetched
    text, byte for byte, in the configuration file.  The code does not: for
    the instance under [/tmp/inst] and a service that answers [<config/>]
    (nine bytes in UTF-8), [config_refresh] returns normally, having copied
    the temporary file while the nine bytes were still in its buffer, and
    the configuration file is left empty. *)
Theorem config_refresh_small_configuration :
  let r := config_refresh sample true sample_base sample_uri
             (lit "ConfigMerge") None sample_world in
  svc_configuration sample sample_world sample_uri = Some (lit "<config/>")
  ∧ utf8_encode (lit "<config/>") = Some "<config/>"
  ∧ r.1 = Return tt
  ∧ trace r.2
    = [Net (ReqGetConfiguration sample_uri);
       TmpCreate (lit "/tmp/tmpk3v9x2ab");
       Log DEBUG
         (MsgStr (lit "Temporary file for current config: /tmp/tmpk3v9x2ab"));
       Log INFO (MsgStr (lit "Refreshing configuration"));
       Log DEBUG
         (MsgStr (lit "Copying /tmp/tmpk3v9x2ab to /tmp/inst/etc/configuration.xml"));
       CopyFile (lit "/tmp/tmpk3v9x2ab")
         (lit "/tmp/inst/etc/configuration.xml");
       TmpUnlink (lit "/tmp/tmpk3v9x2ab")]
  ∧ files r.2 !! lit "/tmp/inst/etc/configuration.xml" = Some EmptyString.
Proof. by vm_compute. Qed.

(** C3: refresh with a read-only configuration is to start the merge tool
    on the read-only configuration and a temporary file that holds the
    fetched text, and to leave the output of the tool in the configuration
    file.  The code does not: for the instance under [/tmp/inst], a service
    that answers [<config/>] and a merge tool that prints [<merged/>],
    the tool is started while the temporary file is still empty on disk,
    and the configuration file is left empty. *)
Theorem config_refresh_small_merge :
  let r := config_refresh sample true sample_base sample_uri
             (lit "ConfigMerge") (Some (lit "/ro.xml")) sample_world in
  svc_configuration sample sample_world sample_uri = Some (lit "<config/>")
  ∧ getoutput (cmd_run sample sample_world
                 [lit "ConfigMerge"; lit "/ro.xml"; lit "/tmp/tmpk3v9x2ab"])
    = [lit "<merged/>"]
  ∧ r.1 = Return tt
  ∧ trace r.2
    = [Net (ReqGetConfiguration sample_uri);
       TmpCreate (lit "/tmp/tmpk3v9x2ab");
       Log DEBUG
         (MsgStr (lit "Temporary file for current config: /tmp/tmpk3v9x2ab"));
       Log INFO
         (MsgStr (lit "Refreshing configuration (merging with read-only config)"));
       Exec [lit "ConfigMerge"; lit "/ro.xml"; lit "/tmp/tmpk3v9x2ab"]
         [None; Some "<ro/>"; Some EmptyString];
       TmpCreate (lit "/tmp/tmpq8w1z7cd");
       Log DEBUG
         (MsgStr (lit "Temporary file for merged config: /tmp/tmpq8w1z7cd"));
       Log DEBUG
         (MsgStr (lit "Copying /tmp/tmpq8w1z7cd to /tmp/inst/etc/configuration.xml"));
       CopyFile (lit "/tmp/tmpq8w1z7cd")
         (lit "/tmp/inst/etc/configuration.xml");
       TmpUnlink (lit "/tmp/tmpq8w1z7cd");
       TmpUnlink (lit "/tmp/tmpk3v9x2ab")]
  ∧ files r.2 !! lit "/tmp/inst/etc/configuration.xml" = Some EmptyString.
Proof. by vm_compute. Qed.

(** * Further properties of the script *)

(** ** The configuration file and its installation *)

(** The path of the configuration file for every base directory: the base,
    a separator unless the base is empty or ends with one, and
    [etc/configuration.xml]; an empty base gives a relative path. *)
Theorem get_config_file_spec (basedir : pystr) :
  get_config_file basedir
  = basedir
    ++ (if negb (truthy basedir) || endswith_sep basedir then [] else [sep])
    ++ lit "etc/configuration.xml".
Proof.
  unfold get_config_file, path_join. cbn [foldl].
  assert (Hstep : ∀ p, join_step (p ++ lit "etc") (lit "configuration.xml")
                       = p ++ lit "etc/configuration.xml").
  { intros p. unfold join_step.
    replace (startswith_sep (lit "configuration.xml")) with false by done.
    replace (truthy (p ++ lit "etc")) with true by (by destruct p).
    replace (endswith_sep (p ++ lit "etc")) with false
      by (unfold endswith_sep; by rewrite last_app).
    cbn [negb orb]. by rewrite <- (assoc_L (++)). }
  unfold join_step at 2.
  replace (startswith_sep (lit "etc")) with false by done.
  destruct (negb (truthy basedir) || endswith_sep basedir).
  - by rewrite Hstep.
  - rewrite cons_middle, (assoc_L (++)), Hstep.
    by rewrite <- !(assoc_L (++)).
Qed.

(** The two ways [install_config] ends when it is not a dry run. *)
Lemma install_config_result (C : collaborators) (src dst : pystr)
  (w : world) :
  let r := install_config C true src dst w in
  dirs r.2 = dirs w
  ∧ ((r.1 = Return tt
      ∧ ∃ data, files w !! src = Some data
                ∧ files r.2 = <[dst:=data]> (files w))
     ∨ (r.1 = Exit 1
        ∧ files r.2 = files w
        ∧ ∃ msg, last (trace r.2) = Some (Log ERROR (MsgStr msg)))).
Proof.
  unfold install_config. run.
  case_bool_decide; run.
  { split; [done|]. right. by rewrite last_snoc; eauto. }
  destruct (files w !! src) as [data|] eqn:Hsrc; run.
  2: { split; [done|]. right. by rewrite last_snoc; eauto. }
  match goal with |- context [copy_fails C ?w0 src dst] =>
    destruct (copy_fails C w0 src dst) as [[|]|] end; run.
  1, 2: split; [done|]; right; by rewrite last_snoc; eauto.
  split; [done|]. left. eauto.
Qed.


(** ** How the program ends *)

Lemma bind_Return_inv {A B} (m : M A) (k : A → M B) (b : B) (w w' : world) :
  bind m k w = (Return b, w') →
  ∃ a w0, m w = (Return a, w0) ∧ k a w0 = (Return b, w').
Proof.
  unfold bind. destruct (m w) as [[a|c|e] w0]; [by eauto|done..].
Qed.

Section ending.
Context (PE : Z → Prop) (PR : exception → Prop).

Lemma ends_ret {A} (a : A) (w : world) : ends PE PR (ret a) w.
Proof. done. Qed.

Lemma ends_ask {A} (f : world → A) (w : world) : ends PE PR (ask f) w.
Proof. done. Qed.

Lemma ends_action (e : event) (w : world) : ends PE PR (action e) w.
Proof. done. Qed.

Lemma ends_log (l : level) (s : pystr) (w : world) : ends PE PR (log l s) w.
Proof. done. Qed.

Lemma ends_sys_exit {A} (c : Z) (w : world) :
  PE c → ends PE PR (@sys_exit A c) w.
Proof. done. Qed.

Lemma ends_raise {A} (e : exception) (w : world) :
  PR e → ends PE PR (@raise A e) w.
Proof. done. Qed.




Lemma ends_file_write C (n : pystr) (data : string) (w : world) :
  ends PE PR (file_write C n data) w.
Proof. done. Qed.




End ending.









(** ** What a refresh does to the files *)

Section scratching.
Context (S : pystr → Prop).

Lemma scratch_ret {A} (a : A) : scratch S (ret a).
Proof. by intros w. Qed.

Lemma scratch_sys_exit {A} (c : Z) : scratch S (@sys_exit A c).
Proof. by intros w. Qed.

Lemma scratch_raise {A} (e : exception) : scratch S (@raise A e).
Proof. by intros w. Qed.

Lemma scratch_ask {A} (f : world → A) : scratch S (ask f).
Proof. by intros w. Qed.

Lemma scratch_action (e : event) : scratch S (action e).
Proof. by intros w. Qed.

Lemma scratch_log (l : level) (s : pystr) : scratch S (log l s).
Proof. by intros w. Qed.

Lemma scratch_get_configuration C (uri : pystr) :
  scratch S (get_configuration C uri).
Proof. by intros w. Qed.

Lemma scratch_bind {A B} (m : M A) (k : A → M B) :
  scratch S m → (∀ a, scratch S (k a)) → scratch S (bind m k).
Proof.
  intros Hm Hk w. unfold bind. destruct (Hm w) as [F1 D1].
  destruct (m w) as [[a|c|e] w1]; cbn [snd] in *; [|done..].
  destruct (Hk a w1) as [F2 D2]. split; [|congruence].
  intros p Hp. by rewrite F2, F1.
Qed.

Lemma scratch_file_write C (n : pystr) (data : string) :
  S n → scratch S (file_write C n data).
Proof.
  intros Hn w. split; [|done]. intros p Hp. cbn.
  apply lookup_insert_ne. by intros ->.
Qed.

Lemma scratch_exec_command C (doit : bool) (cmd : list pystr) (msg : pystr) :
  scratch S (exec_command C doit cmd msg).
Proof.
  intros w. destruct doit; [|done].
  rewrite exec_command_runs. cbv zeta. by destruct (_ && _).
Qed.

Lemma scratch_bytearray_of_str (x : option pystr) :
  scratch S (bytearray_of_str x).
Proof.
  intros w. unfold bytearray_of_str.
  destruct x as [s|]; [|done]. by destruct (utf8_encode (join_chars s)).
Qed.

Lemma scratch_bytearray_of_lines (x : option (list pystr)) :
  scratch S (bytearray_of_lines x).
Proof.
  intros w. unfold bytearray_of_lines.
  destruct x as [l|]; [|done]. by destruct (utf8_encode (join_lines l)).
Qed.

Context (target : pystr) (Htarget : ¬ S target).

Lemma commits_scratch {A} (m : M A) : scratch S m → commits S target m.
Proof. intros Hm w _. destruct (Hm w). by eauto. Qed.

Lemma commits_bind {A B} (m : M A) (k : A → M B) :
  scratch S m → (∀ a, commits S target (k a)) → commits S target (bind m k).
Proof.
  intros Hm Hk w Hw. unfold bind. destruct (Hm w) as [F1 D1].
  destruct (m w) as [[a|c|e] w1]; cbn [snd] in *; [|by eauto..].
  destruct (Hk a w1) as [D2 HF]; [by rewrite F1|].
  split; [congruence|].
  destruct HF as [F2 | (Hret & data & F2)]; [left | right].
  - intros p Hp. by rewrite F2, F1.
  - split; [done|]. exists data. intros p Hp. rewrite F2 by done.
    destruct (decide (target = p)) as [-> | Hne].
    + by rewrite !lookup_insert_eq.
    + rewrite !lookup_insert_ne by done. by apply F1.
Qed.

Lemma commits_install_config C (doit : bool) (src : pystr) :
  commits S target (install_config C doit src target).
Proof.
  intros w Hw. destruct doit.
  - destruct (install_config_result C src target w)
      as [D [(Hret & data & _ & F) | (_ & F & _)]].
    + split; [done|]. right. split; [by eauto|]. exists data.
      intros p _. by rewrite F.
    + split; [done|]. left. intros p _. by rewrite F.
  - split; [done|]. by left.
Qed.

End scratching.

(** A temporary file is scratch space: what the body does to it is gone
    when the block is left. *)
Lemma commits_with_NamedTemporaryFile {A} (C : collaborators)
  (S : pystr → Prop) (target : pystr) (body : pystr → M A) :
  fresh_names C →
  (∀ n, n ≠ target → commits (λ p, S p ∨ p = n) target (body n)) →
  commits S target (with_NamedTemporaryFile C body).
Proof.
  intros Hfresh Hb w Hw. unfold with_NamedTemporaryFile.
  set (n := mkstemp C w).
  change (tmp_open C w).1 with n.
  assert (Hn : files w !! n = None) by apply Hfresh.
  assert (Hne : n ≠ target) by (intros ->; rewrite Hn in Hw; by destruct Hw).
  destruct (Hb n Hne (tmp_open C w).2) as [D HF].
  { rewrite files_tmp_open. fold n. by rewrite lookup_insert_ne. }
  set (r := body n (tmp_open C w).2) in *.
  assert (Hclose : ∀ p, files (tmp_close n r.2) !! p
                        = if decide (p = n) then None else files r.2 !! p).
  { intros p. unfold tmp_close. cbn [files emit set_files set_buffers].
    rewrite delete_insert_eq. case_decide as Hp.
    - subst p. apply lookup_delete_eq.
    - by rewrite lookup_delete_ne. }
  split; [exact D|].
  destruct HF as [F | (Hret & data & F)]; [left | right].
  - intros p Hp. rewrite Hclose. case_decide as Hpn; [by subst p|].
    rewrite F by tauto. rewrite files_tmp_open. fold n.
    by rewrite lookup_insert_ne.
  - split; [exact Hret|]. exists data. intros p Hp. rewrite Hclose.
    case_decide as Hpn.
    + subst p. by rewrite lookup_insert_ne.
    + rewrite F by tauto. rewrite files_tmp_open. fold n.
      destruct (decide (target = p)) as [-> | Hpt].
      * by rewrite !lookup_insert_eq.
      * by rewrite !lookup_insert_ne.
Qed.

Lemma config_refresh_commits (C : collaborators) (doit : bool)
  (basedir uri configmerge : pystr) (roconfig : option pystr) :
  fresh_names C →
  commits (λ _, False) (get_config_file basedir)
    (config_refresh C doit basedir uri configmerge roconfig).
Proof.
  intros Hfresh. unfold config_refresh.
  apply commits_bind; [intuition congruence|apply scratch_ask|]. intros isfile.
  destruct (negb isfile).
  { apply commits_scratch.
    apply scratch_bind; [apply scratch_log|]. intros _. apply scratch_sys_exit. }
  apply commits_bind; [intuition congruence| |].
  { destruct doit; [|apply scratch_ret].
    apply scratch_bind; [apply scratch_get_configuration|]. intros c.
    destruct (negb (truthy c)); [apply scratch_sys_exit|apply scratch_ret]. }
  intros current.
  apply commits_with_NamedTemporaryFile; [done|]. intros fcur Hcur.
  apply commits_bind; [intuition congruence|apply scratch_log|]. intros _.
  apply commits_bind; [intuition congruence| |].
  { destruct doit; [|apply scratch_ret].
    apply scratch_bind; [apply scratch_bytearray_of_str|]. intros data.
    apply scratch_file_write. by right. }
  intros _. destruct (negb (truthy roconfig)).
  { apply commits_bind; [intuition congruence|apply scratch_log|]. intros _.
    apply commits_install_config. }
  apply commits_bind; [intuition congruence|apply scratch_log|]. intros _.
  apply commits_bind; [intuition congruence|apply scratch_exec_command|]. intros merged.
  apply commits_with_NamedTemporaryFile; [done|]. intros fmerged Hmerged.
  apply commits_bind; [intuition congruence|apply scratch_log|]. intros _.
  destruct doit; [|apply commits_scratch, scratch_ret].
  apply commits_bind; [intuition congruence|apply scratch_bytearray_of_lines|]. intros data.
  apply commits_bind; [intuition congruence|apply scratch_file_write; by right|]. intros _.
  apply commits_install_config.
Qed.

(** Without the configuration file [config_refresh] exits at once. *)
Lemma config_refresh_exits_without_file (C : collaborators) (doit : bool)
  (basedir uri configmerge : pystr) (roconfig : option pystr) (w : world) :
  files w !! get_config_file basedir = None →
  config_refresh C doit basedir uri configmerge roconfig w
  = (Exit 1,
     emit (Log ERROR (MsgStr (lit "file " ++ get_config_file basedir
                              ++ lit " does not exist"))) w).
Proof.
  intros Hnone. unfold config_refresh. run.
  rewrite bool_decide_eq_false_2; [done|]. rewrite Hnone. by intros [? ?].
Qed.



(** When [config_refresh] returns normally, the configuration file existed
    before and exists afterwards. *)
Lemma config_refresh_returns_with_file (C : collaborators) (doit : bool)
  (basedir uri configmerge : pystr) (roconfig : option pystr) (w w' : world) :
  fresh_names C →
  config_refresh C doit basedir uri configmerge roconfig w = (Return tt, w') →
  is_Some (files w !! get_config_file basedir)
  ∧ is_Some (files w' !! get_config_file basedir).
Proof.
  intros Hfresh Hrun.
  destruct (files w !! get_config_file basedir) as [old|] eqn:Hold.
  2: { by rewrite config_refresh_exits_without_file in Hrun. }
  split; [done|].
  destruct (config_refresh_commits C doit basedir uri configmerge roconfig
              Hfresh w) as [_ HF]; [by rewrite Hold|].
  rewrite Hrun in HF. cbn [fst snd] in HF.
  destruct HF as [F | (_ & data & F)].
  - rewrite F by tauto. by rewrite Hold.
  - rewrite F by tauto. by rewrite lookup_insert_eq.
Qed.

Lemma bind_exits {A B} (m : M A) (k : A → M B) (c : Z) (w w1 : world) :
  m w = (Exit c, w1) → bind m k w = (Exit c, w1).
Proof. intros Hm. unfold bind. by rewrite Hm. Qed.


(** ** Uploading after an operation *)

(** The operation of the locked section, when it returns, ends with a
    [config_refresh] that returned. *)
Lemma operation_ends_with_refresh (C : collaborators) (args : arguments)
  (uri configmerge_file : pystr) (w w' : world) :
  locked_section C (without_upload args) uri configmerge_file w
  = (Return tt, w') →
  ∃ w0,
    config_refresh C (arg_noop args) (arg_base args) uri configmerge_file
      (arg_roconfig args) w0
    = (Return tt, w').
Proof.
  unfold locked_section. cbn [without_upload arg_add arg_delete arg_refresh
    arg_upload arg_noop arg_base arg_roconfig].
  intros H. apply bind_Return_inv in H as ([] & w1 & H & Hret).
  unfold ret in Hret. simplify_eq.
  destruct (truthy (arg_add args)); [|destruct (truthy (arg_delete args));
    [|destruct (arg_refresh args)]].
  - apply bind_Return_inv in H as (? & w0 & _ & H). by eexists.
  - apply bind_Return_inv in H as (? & w0 & _ & H). by eexists.
  - by eexists.
  - by apply bind_Return_inv in H as (? & w0 & _ & H).
Qed.

(** With [--upload], whenever the selected operation (add, delete or
    refresh) returns normally, the configuration file is there and, unless
    it is a dry run, its path is sent to the service with
    [set_configuration] as the last request; the "does not exist" exit of
    the upload step cannot be taken after an operation that returned. *)
Theorem upload_after_operation (C : collaborators) (args : arguments)
  (uri configmerge_file : pystr) (w w' : world) :
  fresh_names C →
  arg_upload args = true →
  locked_section C (without_upload args) uri configmerge_file w
  = (Return tt, w') →
  locked_section C args uri configmerge_file w
  = (Return tt,
     if arg_noop args
     then emit (Net (ReqSetConfiguration (get_config_file (arg_base args))
                       uri)) w'
     else w').
Proof.
  intros Hfresh Hup Hop.
  destruct (operation_ends_with_refresh C args uri configmerge_file w w' Hop)
    as [w0 Hrefresh].
  apply config_refresh_returns_with_file in Hrefresh as [_ Hfile]; [|done].
  revert Hop. unfold locked_section.
  cbn [without_upload arg_add arg_delete arg_refresh arg_upload arg_noop
    arg_base arg_roconfig].
  intros Hop. apply bind_Return_inv in Hop as ([] & w1 & Hop & Hret).
  unfold ret in Hret. simplify_eq.
  eapply bind_runs; [exact Hop|]. rewrite Hup.
  eapply bind_runs; [reflexivity|]. cbn beta.
  rewrite bool_decide_eq_true_2 by done.
  by destruct (arg_noop args).
Qed.

Lemma upload_after_operation_witness :
  fresh_names sample
  ∧ arg_upload sample_refresh_upload = true
  ∧ last (trace (locked_section sample sample_refresh_upload sample_uri
                   (lit "ConfigMerge") sample_world).2)
    = Some (Net (ReqSetConfiguration (lit "/tmp/inst/etc/configuration.xml")
                   sample_uri)).
Proof.
  split; [exact sample_fresh|]. split; [done|].
  rewrite (upload_after_operation sample sample_refresh_upload sample_uri
             (lit "ConfigMerge") sample_world
             (locked_section sample (without_upload sample_refresh_upload)
                sample_uri (lit "ConfigMerge") sample_world).2
             sample_fresh eq_refl ltac:(by vm_compute)).
  cbn [arg_noop sample_refresh_upload snd trace emit]. apply last_snoc.
Defined.

(** ** Refresh when a collaborator fails *)

(** When the service has no configuration to give (nothing, or an empty
    text), a refresh that is not a dry run exits with code 1 right after
    the request: the script logs nothing itself, creates no temporary file
    and leaves the configuration file alone. *)
Theorem config_refresh_no_configuration (C : collaborators)
  (basedir uri configmerge : pystr) (roconfig : option pystr) (w : world) :
  is_Some (files w !! get_config_file basedir) →
  truthy (svc_configuration C w uri) = false →
  config_refresh C true basedir uri configmerge roconfig w
  = (Exit 1, emit (Net (ReqGetConfiguration uri)) w).
Proof.
  intros Hfile Hnone. unfold config_refresh.
  eapply bind_runs; [reflexivity|]. cbn beta.
  rewrite bool_decide_eq_true_2 by done. cbn [negb].
  apply bind_exits. eapply bind_runs; [reflexivity|]. cbn beta.
  by rewrite Hnone.
Qed.

Lemma config_refresh_no_configuration_witness :
  is_Some (files sample_world !! get_config_file sample_base)
  ∧ truthy (svc_configuration sample_silent sample_world sample_uri) = false
  ∧ config_refresh sample_silent true sample_base sample_uri
      (lit "ConfigMerge") None sample_world
    = (Exit 1, emit (Net (ReqGetConfiguration sample_uri)) sample_world).
Proof.
  assert (H : is_Some (files sample_world !! get_config_file sample_base))
    by (vm_compute; by eexists).
  split; [exact H|]. split; [done|].
  exact (config_refresh_no_configuration sample_silent sample_base sample_uri
           (lit "ConfigMerge") None sample_world H eq_refl).
Defined.

(** When the merge tool fails (it does not finish, or its return code is
    not 0), a refresh with a read-only configuration logs "cannot merge
    configuration" and the captured output and exits with code 1: the
    first temporary file is removed, no second one is created, nothing is
    copied, and every file is as it was. *)
Theorem config_refresh_merge_failure (C : collaborators)
  (basedir uri configmerge ro text : pystr) (data : string)
  (res : cmd_result) (w : world) :
  fresh_names C →
  is_Some (files w !! get_config_file basedir) →
  truthy ro = true →
  svc_configuration C w uri = Some text → text ≠ [] →
  utf8_encode text = Some data →
  (∀ w' argv, cmd_run C w' argv = res) →
  getstate res ≠ FINISHED ∨ getretcode res ≠ Some 0%Z →
  ∃ fcur seen w',
    config_refresh C true basedir uri configmerge (Some ro) w = (Exit 1, w')
    ∧ trace w' = trace w ++
        [Net (ReqGetConfiguration uri);
         TmpCreate fcur;
         Log DEBUG
           (MsgStr (lit "Temporary file for current config: " ++ fcur));
         Log INFO
           (MsgStr (lit "Refreshing configuration (merging with read-only config)"));
         Exec [configmerge; ro; fcur] seen;
         Log ERROR (MsgStr (lit "cannot merge configuration"));
         Log ERROR (MsgLines (getoutput res));
         TmpUnlink fcur]
    ∧ files w' = files w.
Proof.
  intros Hfresh Hfile Hro Htext Hne Hdata Hrun Hfail.
  set (w1 := emit (Net (ReqGetConfiguration uri)) w).
  set (fcur := mkstemp C w1).
  assert (Hcur : files w !! fcur = None) by apply (Hfresh w1).
  assert (Hfailed : bool_decide (getstate res = FINISHED)
                    && bool_decide (getretcode res = Some 0%Z) = false).
  { destruct Hfail; repeat case_bool_decide; done. }
  eexists fcur, _, _. split; [|split].
  - unfold config_refresh.
    eapply bind_runs; [reflexivity|]. cbn beta.
    rewrite bool_decide_eq_true_2 by done. cbn [negb].
    eapply bind_runs.
    { eapply bind_runs; [reflexivity|]. cbn beta. rewrite Htext.
      destruct text; [done|]. reflexivity. }
    apply with_NamedTemporaryFile_runs. fold w1 fcur.
    eapply bind_runs; [reflexivity|].
    eapply bind_runs.
    { eapply bind_runs.
      - unfold bytearray_of_str. rewrite join_chars_id, Hdata. reflexivity.
      - apply file_write_first; cbn; apply lookup_insert_eq. }
    cbn [truthy option_truthy]. rewrite Hro. cbn [negb].
    eapply bind_runs; [reflexivity|].
    apply bind_exits.
    rewrite exec_command_runs, Hrun. cbv zeta. rewrite Hfailed. reflexivity.
  - unfold tmp_close, tmp_open.
    cbn [trace emit set_files set_buffers fst snd the default from_option id].
    fold w1 fcur. cbn [w1 trace emit].
    by rewrite <- !(assoc_L (++)).
  - unfold tmp_close, tmp_open.
    cbn [files buffers emit set_files set_buffers fst snd]. fold w1 fcur.
    cbn [w1 files emit].
    by rewrite !delete_insert_eq, delete_id.
Qed.

Lemma config_refresh_merge_failure_witness :
  fresh_names sample_failing_merge
  ∧ ∃ fcur seen w',
      config_refresh sample_failing_merge true sample_base sample_uri
        (lit "ConfigMerge") (Some (lit "/ro.xml")) sample_world
      = (Exit 1, w')
      ∧ trace w' = trace sample_world ++
          [Net (ReqGetConfiguration sample_uri);
           TmpCreate fcur;
           Log DEBUG
             (MsgStr (lit "Temporary file for current config: " ++ fcur));
           Log INFO
             (MsgStr (lit "Refreshing configuration (merging with read-only config)"));
           Exec [lit "ConfigMerge"; lit "/ro.xml"; fcur] seen;
           Log ERROR (MsgStr (lit "cannot merge configuration"));
           Log ERROR (MsgLines [lit "error"]);
           TmpUnlink fcur]
      ∧ files w' = files sample_world.
Proof.
  assert (Hfresh : fresh_names sample_failing_merge) by exact sample_fresh.
  split; [exact Hfresh|].
  assert (Hfile : is_Some (files sample_world
                             !! get_config_file sample_base))
    by (vm_compute; by eexists).
  apply (config_refresh_merge_failure sample_failing_merge sample_base
           sample_uri (lit "ConfigMerge") (lit "/ro.xml") (lit "<config/>")
           "<config/>" (CmdResult FINISHED (Some 1%Z) [lit "error"])
           sample_world Hfresh Hfile eq_refl eq_refl ltac:(done) eq_refl
           ltac:(done) ltac:(by right)).
Defined.

(** ** Adding and deleting projects *)








(** The directory a delete removes: a project name that starts with [/]
    is removed as that absolute path, whatever the source root is; any
    other name is removed below the source root (the stripped first value),
    with a separator in between unless the root ends with one. *)
Theorem project_delete_directory (C : collaborators)
  (name uri first : pystr) (rest : list pystr) (w : world) :
  name ≠ [] →
  (∀ w', svc_config_value C w' (lit "sourceRoot") uri = Some (first :: rest)) →
  rstrip first ≠ [] →
  removed_dirs (events_of (project_delete C true (Some name) uri) w)
  = [if startswith_sep name then name
     else rstrip first
          ++ (if endswith_sep (rstrip first) then [] else [sep]) ++ name].
Proof.
  intros Hname Hsrc Hroot.
  rewrite (events_of_app _ _ _
             (project_delete_trace C true name uri first rest w Hname Hsrc)).
  destruct (rstrip first) as [|c s] eqn:E; [done|].
  cbn [truthy list_truthy app removed_dirs]. f_equal.
  unfold path_join. cbn [foldl]. unfold join_step.
  destruct (startswith_sep name); [done|].
  cbn [truthy list_truthy negb orb].
  destruct (endswith_sep (c :: s)); [by rewrite app_nil_l|done].
Qed.

Lemma project_delete_directory_witness :
  lit "/etc" ≠ []
  ∧ removed_dirs
      (events_of (project_delete sample true (Some (lit "/etc")) sample_uri)
         sample_world)
    = [lit "/etc"].
Proof.
  split; [done|].
  exact (project_delete_directory sample (lit "/etc") sample_uri (lit "/src")
           [] sample_world ltac:(done) ltac:(done) ltac:(done)).
Defined.





(** ** The main program *)

(** The checks before the lock, in full: [preflight] either returns the
    resolved merge command, and then the base (unless empty) is a
    directory, the read-only configuration (if given) is a file, the URI
    is not empty and the command look-up gave a name that is not empty;
    or it exits with code 1, an error being the last thing logged.  It
    never raises, and it changes neither files nor directories. *)
Theorem preflight_outcomes (C : collaborators) (args : arguments) (w : world) :
  let r := preflight C args w in
  files r.2 = files w ∧ dirs r.2 = dirs w
  ∧ match r.1 with
    | Return configmerge_file =>
        (arg_base args = [] ∨ arg_base args ∈ dirs w)
        ∧ (truthy (arg_roconfig args) = true →
           is_Some (files w !! the (arg_roconfig args)))
        ∧ arg_uri args ≠ []
        ∧ configmerge_file ≠ []
        ∧ ∃ w0, get_command C w0 (arg_configmerge args) (lit "ConfigMerge")
                = Some configmerge_file
    | Exit c =>
        c = 1%Z ∧ ∃ msg, last (trace r.2) = Some (Log ERROR (MsgStr msg))
    | Raise _ => False
    end.
Proof.
  cbv zeta. destruct (preflight_quiet C args) as [_ Hk].
  destruct (Hk w) as (F & D & _). split; [done|]. split; [done|].
  clear F D Hk. unfold preflight.
  destruct (arg_base args) as [|b base] eqn:Hbase;
    destruct (arg_roconfig args) as [[|c ro]|] eqn:Hro;
    destruct (arg_uri args) as [|u uri] eqn:Huri; run.
  all: repeat (case_bool_decide; run).
  all: try (rewrite last_snoc; by eauto).
  all: match goal with
       | |- context [get_command ?C0 ?w0 ?a ?b] =>
           destruct (get_command C0 w0 a b) as [[|m cm]|] eqn:Hcm; run
       end.
  all: try (rewrite last_snoc; by eauto).
  all: split_and!; [by (left + right)|by intros ?|done|done|by eexists].
Qed.
